(** * The transformation stage of the YouTube ad-metrics pipeline

    A shallow embedding of [src/transform.py] ([DataTransformer]) together
    with the handful of pandas operations it calls, and the properties of the
    cleaning, metric and feature stages.

    Conventions of the embedding:
    - a float64 value is a [Float.num]: an exact rational, or one of the
      special values NaN, +inf, -inf.  Arithmetic on finite values is exact
      (binary rounding of float64 is not modelled); the special values
      follow IEEE 754 as numpy does (no division raises);
    - a numeric cell of the raw table is a number or missing (an empty CSV
      field, read as NaN);
    - a [DataFrame] is the list of its rows; every operation the source
      applies to a column is elementwise, so it is written on one row;
    - DataFrames are objects in a store, the transformer holds references to
      them; [copy], boolean indexing and [drop_duplicates] allocate, column
      assignment writes in place;
    - exceptions are values: every method returns an outcome and the store. *)

From Stdlib Require Import ZArith QArith Qround Qcanon Lqa.
From Stdlib Require Import String List Bool Arith Lia.
Import ListNotations.

Set Implicit Arguments.

(** ** float64 values *)

Module Float.

Local Open Scope Q_scope.

Inductive num : Type :=
| NaN
| NInf
| Fin (q : Q)
| PInf.

(** Finite results are kept in lowest terms, so that equal values are equal
    terms. *)
Definition fin (q : Q) : num := Fin (Qred q).

Definition of_Z (z : Z) : num := Fin (inject_Z z).

(** A numeric cell read from the CSV: a number, or missing. *)
Definition cell : Type := option Q.

Definition of_cell (c : cell) : num :=
  match c with
  | Some q => Fin q
  | None => NaN
  end.

Definition isnan (x : num) : bool :=
  match x with NaN => true | _ => false end.

Definition is_finite (x : num) : bool :=
  match x with Fin _ => true | _ => false end.

Definition Qltb (a b : Q) : bool :=
  match a ?= b with Lt => true | _ => false end.

Definition Qeqb0 (a : Q) : bool :=
  match a ?= 0 with Eq => true | _ => false end.

(** [x < y]; every comparison with NaN is false. *)
Definition ltb (x y : num) : bool :=
  match x, y with
  | NaN, _ | _, NaN => false
  | _, NInf => false
  | NInf, _ => true
  | PInf, _ => false
  | Fin _, PInf => true
  | Fin a, Fin b => Qltb a b
  end.

Definition gtb (x y : num) : bool := ltb y x.

(** [x <= y]; every comparison with NaN is false. *)
Definition leb (x y : num) : bool :=
  match x, y with
  | NaN, _ | _, NaN => false
  | _, _ => negb (ltb y x)
  end.

(** Sign of a value as a comparison with zero ([None] for NaN). *)
Definition sign (x : num) : option comparison :=
  match x with
  | NaN => None
  | NInf => Some Lt
  | PInf => Some Gt
  | Fin q => Some (q ?= 0)
  end.

Definition inf_of (c : comparison) : num :=
  match c with Lt => NInf | Gt => PInf | Eq => NaN end.

Definition sign_mul (a b : comparison) : comparison :=
  match a, b with
  | Eq, _ | _, Eq => Eq
  | Lt, Lt | Gt, Gt => Gt
  | _, _ => Lt
  end.

Definition add (x y : num) : num :=
  match x, y with
  | NaN, _ | _, NaN => NaN
  | PInf, NInf | NInf, PInf => NaN
  | PInf, _ | _, PInf => PInf
  | NInf, _ | _, NInf => NInf
  | Fin a, Fin b => fin (a + b)
  end.

Definition mul (x y : num) : num :=
  match x, y with
  | NaN, _ | _, NaN => NaN
  | Fin a, Fin b => fin (a * b)
  | _, _ =>
      match sign x, sign y with
      | Some a, Some b => inf_of (sign_mul a b)
      | _, _ => NaN
      end
  end.

(** Division never raises: [a / 0] is an infinity of the sign of [a], and
    [0 / 0] is NaN (a zero divisor counts as +0). *)
Definition div (x y : num) : num :=
  match x, y with
  | NaN, _ | _, NaN => NaN
  | Fin a, Fin b =>
      if Qeqb0 b then inf_of (a ?= 0) else fin (a / b)
  | Fin _, _ => fin 0
  | _, Fin b =>
      match sign x with
      | Some a => inf_of (sign_mul a (if Qltb b 0 then Lt else Gt))
      | None => NaN
      end
  | _, _ => NaN
  end.

(** Nearest integer, ties to the even one (numpy's [rint]). *)
Definition rint (q : Q) : Z :=
  let f := Qfloor q in
  match ((q - inject_Z f) ?= (1 # 2))%Q with
  | Lt => f
  | Gt => (f + 1)%Z
  | Eq => if Z.even f then f else (f + 1)%Z
  end.

(** [Series.round(decimals)]: scale, round to the nearest integer, scale
    back. *)
Definition round (decimals : nat) (x : num) : num :=
  match x with
  | Fin q =>
      let s := inject_Z (10 ^ Z.of_nat decimals) in
      fin (inject_Z (rint (q * s)) / s)
  | _ => x
  end.

(** [Series.clip(lower=l)]. *)
Definition clip_lower (l x : num) : num :=
  if ltb x l then l else x.

(** [Series.fillna(v)], on a derived column and on a raw one. *)
Definition fillna (v x : num) : num :=
  if isnan x then v else x.

Definition fillna_cell (v : Q) (c : cell) : cell :=
  match c with
  | Some _ => c
  | None => Some v
  end.

(** [Series.replace(0, 1)]. *)
Definition replace_0_1 (x : num) : num :=
  match x with
  | Fin q => if Qeqb0 q then Fin 1 else x
  | _ => x
  end.

End Float.

(** ** Tables and the pandas operations the transformer calls *)

Module Pandas.

Import Float.

(** A cell of the [published_at] column.  The raw CSV holds text (or nothing);
    after [to_datetime] the column holds datetime64 values.  Text is
    represented by what [pd.to_datetime] makes of it: instants are counted in
    nanoseconds. *)
Inductive time_cell : Type :=
| NaT                      (* missing value *)
| DateString (t : Z)       (* text that to_datetime parses, to instant t *)
| BadString (s : string)   (* text that to_datetime rejects *)
| Timestamp (t : Z).       (* a datetime64 value *)

(** The columns written by [YouTubeExtractor._parse_video]. *)
Record VideoRecord : Type := mkVideo {
  video_id : string;
  title : string;
  channel_id : string;
  channel_title : string;
  category_id : string;
  category_name : string;
  published_at : time_cell;
  duration_seconds : cell;
  view_count : cell;
  like_count : cell;
  comment_count : cell;
  collected_at : string
}.

(** The columns added by [calculate_metrics]. *)
Record Metrics : Type := mkMetrics {
  duration_minutes : num;
  base_ad_rate : num;
  channel_tier : string;
  tier_multiplier : num;
  ad_density : num;
  estimated_ads : num;
  ad_time_seconds : num;
  ad_ratio : num;
  engagement_rate : num;
  revenue_pressure : num
}.

(** The columns added by [add_features]; a categorical cell is a label or
    NaN ([None]). *)
Record Features : Type := mkFeatures {
  age_days : num;
  duration_category : option string;
  views_per_day : num
}.

(** A row carries the raw columns and, once the stages have run, the derived
    ones. *)
Record Row : Type := mkRow {
  video : VideoRecord;
  metrics : option Metrics;
  features : option Features
}.

Definition DataFrame : Type := list Row.

Inductive exn : Type :=
| AttributeError (what : string)
| KeyError (column : string)
| DateParseError (value : string).

(** *** Column updates *)

Definition with_counts (f : cell -> cell) (v : VideoRecord) : VideoRecord :=
  mkVideo (video_id v) (title v) (channel_id v) (channel_title v)
          (category_id v) (category_name v) (published_at v)
          (duration_seconds v)
          (f (view_count v)) (f (like_count v)) (f (comment_count v))
          (collected_at v).

Definition with_published_at (v : VideoRecord) (c : time_cell) : VideoRecord :=
  mkVideo (video_id v) (title v) (channel_id v) (channel_title v)
          (category_id v) (category_name v) c
          (duration_seconds v)
          (view_count v) (like_count v) (comment_count v)
          (collected_at v).

Definition on_video (f : VideoRecord -> VideoRecord) (r : Row) : Row :=
  mkRow (f (video r)) (metrics r) (features r).

Definition set_published_at (r : Row) (c : time_cell) : Row :=
  on_video (fun v => with_published_at v c) r.

(** [df[col] = values]: the new column is laid over the rows in order. *)
Fixpoint setitem {C : Type} (upd : Row -> C -> Row) (df : DataFrame)
         (col : list C) : DataFrame :=
  match df, col with
  | r :: df', c :: col' => upd r c :: setitem upd df' col'
  | _, _ => df
  end.

(** *** drop_duplicates(subset=['video_id']), keeping the first occurrence *)

Fixpoint drop_duplicates_from (seen : list string) (df : DataFrame)
  : DataFrame :=
  match df with
  | [] => []
  | r :: df' =>
      let k := video_id (video r) in
      if existsb (String.eqb k) seen
      then drop_duplicates_from seen df'
      else r :: drop_duplicates_from (k :: seen) df'
  end.

Definition drop_duplicates (df : DataFrame) : DataFrame :=
  drop_duplicates_from [] df.

(** *** pd.to_datetime (errors='raise') *)

Definition to_datetime_cell (c : time_cell) : exn + time_cell :=
  match c with
  | NaT => inr NaT
  | DateString t => inr (Timestamp t)
  | BadString s => inl (DateParseError s)
  | Timestamp t => inr (Timestamp t)
  end.

Fixpoint to_datetime (col : list time_cell) : exn + list time_cell :=
  match col with
  | [] => inr []
  | c :: col' =>
      match to_datetime_cell c with
      | inl e => inl e
      | inr c' =>
          match to_datetime col' with
          | inl e => inl e
          | inr out => inr (c' :: out)
          end
      end
  end.

(** A column has a datetime dtype (so that [.dt] works) when it holds
    datetime64 values and NaT only. *)
Definition is_datetime (c : time_cell) : bool :=
  match c with
  | NaT | Timestamp _ => true
  | DateString _ | BadString _ => false
  end.

(** *** pd.cut(x, bins, labels) with the defaults right=True,
        include_lowest=False *)

(** First position whose bin edge is not below [x]
    ([bins.searchsorted(x, side='left')]). *)
Fixpoint searchsorted_left (bins : list num) (x : num) : nat :=
  match bins with
  | [] => 0
  | b :: bins' => if ltb b x then S (searchsorted_left bins' x) else 0
  end.

(** The label of the interval (bins[i-1], bins[i]] that holds [x]; NaN
    ([None]) when [x] is NaN, at or below the first edge, or above the last. *)
Definition cut (bins : list num) (labels : list string) (x : num)
  : option string :=
  let ids := searchsorted_left bins x in
  if isnan x || Nat.eqb ids (List.length bins) || Nat.eqb ids 0
  then None
  else nth_error labels (ids - 1).

(** [astype(str)] on a categorical column: NaN becomes the text nan. *)
Definition astype_str (c : option string) : string :=
  match c with
  | Some s => s
  | None => "nan"%string
  end.

(** [Series.map(dict)]: a key that the dict lacks maps to NaN. *)
Fixpoint map_dict (d : list (string * num)) (k : string) : num :=
  match d with
  | [] => NaN
  | (k', v) :: d' => if String.eqb k k' then v else map_dict d' k
  end.

End Pandas.

(** ** The object store and the monad of the methods *)

Module Store.

Import Pandas.

(** A reference to a DataFrame object: its position in the store. *)
Abbreviation ref := nat (only parsing).

(** The attributes of a [DataTransformer] instance. *)
Record DataTransformer : Type := mkSelf {
  filepath : option string;
  data : option ref;
  processed : option ref
}.

(** The DataFrame objects alive, and the instance the methods run on. *)
Record World : Type := mkWorld {
  heap : list DataFrame;
  self : DataTransformer
}.

(** A method runs on a world, and returns a value or an exception, and the
    world it leaves. *)
Definition M (A : Type) : Type := World -> (exn + A) * World.

Definition ret {A : Type} (a : A) : M A := fun w => (inr a, w).

Definition raise {A : Type} (e : exn) : M A := fun w => (inl e, w).

Definition bind {A B : Type} (c : M A) (k : A -> M B) : M B :=
  fun w =>
    match c w with
    | (inr a, w') => k a w'
    | (inl e, w') => (inl e, w')
    end.

Definition lift {A : Type} (x : exn + A) : M A := fun w => (x, w).

Declare Scope method_scope.
Delimit Scope method_scope with method.
Notation "x <- c ;; k" := (bind c (fun x => k))
  (at level 61, c at next level, right associativity) : method_scope.
Notation "c ;; k" := (bind c (fun _ => k))
  (at level 61, right associativity) : method_scope.

Local Open Scope method_scope.

Fixpoint update {A : Type} (i : nat) (f : A -> A) (l : list A) : list A :=
  match l, i with
  | [], _ => []
  | x :: l', O => f x :: l'
  | x :: l', S i' => x :: update i' f l'
  end.

(** A new object. *)
Definition alloc (df : DataFrame) : M ref :=
  fun w => (inr (List.length (heap w)), mkWorld (heap w ++ [df]) (self w)).

(** The rows of an object.  A reference the methods hold always denotes an
    object; the other case only makes the function total. *)
Definition load (r : ref) : M DataFrame :=
  fun w =>
    match nth_error (heap w) r with
    | Some df => (inr df, w)
    | None => (inl (AttributeError "no such object"), w)
    end.

(** In-place write to an object. *)
Definition store (r : ref) (f : DataFrame -> DataFrame) : M unit :=
  fun w => (inr tt, mkWorld (update r f (heap w)) (self w)).

(** [df.copy()]. *)
Definition copy (r : ref) : M ref :=
  df <- load r ;; alloc df.

(** An operation that returns a new DataFrame ([drop_duplicates], boolean
    indexing). *)
Definition derive (r : ref) (f : DataFrame -> DataFrame) : M ref :=
  df <- load r ;; alloc (f df).

(** [df[cols] = f(df[cols])], elementwise. *)
Definition assign (r : ref) (f : Row -> Row) : M unit :=
  store r (map f).

(** [self.data] and [self.processed], as the receiver of a method call: on
    None the call raises. *)
Definition attr_data : M ref :=
  fun w =>
    match data (self w) with
    | Some r => (inr r, w)
    | None => (inl (AttributeError "NoneType has no attribute copy"), w)
    end.

Definition attr_processed : M ref :=
  fun w =>
    match processed (self w) with
    | Some r => (inr r, w)
    | None => (inl (AttributeError "NoneType has no attribute copy"), w)
    end.

(** [self.processed], read as a value. *)
Definition get_processed : M (option ref) :=
  fun w => (inr (processed (self w)), w).

Definition set_data (r : ref) : M unit :=
  fun w =>
    (inr tt,
     mkWorld (heap w)
             (mkSelf (filepath (self w)) (Some r) (processed (self w)))).

Definition set_processed (r : ref) : M unit :=
  fun w =>
    (inr tt,
     mkWorld (heap w)
             (mkSelf (filepath (self w)) (data (self w)) (Some r))).

(** The DataFrame a reference denotes. *)
Definition table (w : World) (r : ref) : option DataFrame :=
  nth_error (heap w) r.

(** [DataTransformer(filepath)]. *)
Definition init (path : option string) : DataTransformer :=
  mkSelf path None None.

End Store.

(** ** DataTransformer *)

Module Transform.

Import Float Pandas Store.
Local Open Scope method_scope.
Local Open Scope string_scope.

(** *** clean_data *)

Definition numeric_fillna : Row -> Row :=
  on_video (with_counts (fillna_cell 0)).

Definition positive_duration (r : Row) : bool :=
  gtb (of_cell (duration_seconds (video r))) (of_Z 0).

Definition clean_data : M ref :=
  d <- attr_data ;;
  df <- copy d ;;
  df <- derive df drop_duplicates ;;
  assign df numeric_fillna ;;
  df <- derive df (filter positive_duration) ;;
  rows <- load df ;;
  col <- lift (to_datetime (map (fun r => published_at (video r)) rows)) ;;
  store df (fun rows => setitem set_published_at rows col) ;;
  set_data df ;;
  ret df.

(** The table [clean_data] builds from the table [self.data] refers to. *)
Definition cleaned (df : DataFrame) : exn + DataFrame :=
  let kept :=
    filter positive_duration (map numeric_fillna (drop_duplicates df)) in
  match to_datetime (map (fun r => published_at (video r)) kept) with
  | inl e => inl e
  | inr col => inr (setitem set_published_at kept col)
  end.

(** *** calculate_metrics *)

Definition category_rates : list (string * num) :=
  [ ("Music", fin 0.15);
    ("Gaming", fin 0.25);
    ("People & Blogs", fin 0.22);
    ("Entertainment", fin 0.30);
    ("News & Politics", fin 0.35);
    ("Sports", fin 0.32);
    ("Science & Technology", fin 0.22) ].

Definition tier_bins : list num :=
  [of_Z 0; of_Z 10000; of_Z 100000; of_Z 1000000; of_Z 10000000; PInf].

Definition tier_labels : list string :=
  ["Micro"; "Small"; "Medium"; "Large"; "Enterprise"].

Definition tier_multipliers : list (string * num) :=
  [ ("Micro", fin 1.2); ("Small", fin 1.1); ("Medium", fin 1.0);
    ("Large", fin 0.9); ("Enterprise", fin 0.8) ].

(** The derived columns of one row, in the order the source assigns them. *)
Definition metrics_of (v : VideoRecord) : Metrics :=
  let duration_seconds := of_cell (duration_seconds v) in
  let view_count := of_cell (view_count v) in
  let like_count := of_cell (like_count v) in
  let comment_count := of_cell (comment_count v) in
  let duration_minutes := div duration_seconds (of_Z 60) in
  let base_ad_rate :=
    fillna (fin 0.25) (map_dict category_rates (category_name v)) in
  let channel_tier :=
    astype_str (cut tier_bins tier_labels view_count) in
  let tier_multiplier :=
    fillna (fin 1.0) (map_dict tier_multipliers channel_tier) in
  let ad_density := mul base_ad_rate tier_multiplier in
  let estimated_ads :=
    round 0 (clip_lower (of_Z 1) (mul ad_density duration_minutes)) in
  let ad_time_seconds := mul estimated_ads (of_Z 20) in
  let ad_ratio :=
    round 2 (mul (div ad_time_seconds duration_seconds) (of_Z 100)) in
  let engagement_rate :=
    round 3 (mul (div (add like_count comment_count)
                      (replace_0_1 view_count))
                 (of_Z 100)) in
  let revenue_pressure :=
    round 3 (add (add (mul ad_density (fin 0.5))
                      (mul (mul ad_ratio (fin 0.01)) (fin 0.3)))
                 (mul (div view_count (fin 1e6)) (fin 0.2))) in
  mkMetrics duration_minutes base_ad_rate channel_tier tier_multiplier
            ad_density estimated_ads ad_time_seconds ad_ratio
            engagement_rate revenue_pressure.

(** Every number among the metrics is finite: neither NaN nor infinite. *)
Definition all_finite (m : Metrics) : bool :=
  forallb is_finite
          [ duration_minutes m; base_ad_rate m; tier_multiplier m;
            ad_density m; estimated_ads m; ad_time_seconds m; ad_ratio m;
            engagement_rate m; revenue_pressure m ].

Definition add_metrics (r : Row) : Row :=
  mkRow (video r) (Some (metrics_of (video r))) (features r).

Definition calculate_metrics : M ref :=
  d <- attr_data ;;
  df <- copy d ;;
  assign df add_metrics ;;
  set_processed df ;;
  ret df.

(** *** add_features *)

Definition ns_per_day : Z := 86400 * 1000000000.

Definition duration_bins : list num :=
  [of_Z 0; of_Z 5; of_Z 15; of_Z 30; PInf].

Definition duration_labels : list string :=
  ["Short"; "Medium"; "Long"; "Very Long"].

(** [(now - published_at).dt.days]: whole days, rounded down; NaN for NaT. *)
Definition days_since (now : Z) (c : time_cell) : num :=
  match c with
  | Timestamp t => of_Z ((now - t) / ns_per_day)
  | _ => NaN
  end.

Definition features_of (now : Z) (v : VideoRecord) (m : Metrics) : Features :=
  let age_days := days_since now (published_at v) in
  let duration_category :=
    cut duration_bins duration_labels (duration_minutes m) in
  let views_per_day :=
    round 0 (div (of_cell (view_count v)) (replace_0_1 age_days)) in
  mkFeatures age_days duration_category views_per_day.

Definition add_feature_columns (now : Z) (r : Row) : Row :=
  match metrics r with
  | Some m => mkRow (video r) (metrics r) (Some (features_of now (video r) m))
  | None => r
  end.

Definition has_datetime (r : Row) : bool :=
  is_datetime (published_at (video r)).

Definition has_metrics (r : Row) : bool :=
  match metrics r with Some _ => true | None => false end.

(** [now] is the value of [pd.Timestamp.now()], read once per call. *)
Definition add_features (now : Z) : M ref :=
  p <- attr_processed ;;
  df <- copy p ;;
  rows <- load df ;;
  if negb (forallb has_datetime rows)
  then raise (AttributeError "Can only use .dt accessor with datetimelike values")
  else if negb (forallb has_metrics rows)
  then raise (KeyError "duration_minutes")
  else
    assign df (add_feature_columns now) ;;
    set_processed df ;;
    ret df.

(** *** process_pipeline *)

Definition process_pipeline (now : Z) : M (option ref) :=
  clean_data ;;
  calculate_metrics ;;
  add_features now ;;
  get_processed.

End Transform.

(** ** Test data

    The fixture of [tests/test_pipeline.py] and a few tables around it. *)

Module Fixtures.

Import Float Pandas Store.
Local Open Scope string_scope.

Definition raw_row (id name : string) (published : time_cell)
           (seconds views likes comments : cell) : Row :=
  mkRow (mkVideo id ("Video " ++ id) ("ch_" ++ id) ("Channel " ++ id)
                 "10" name published seconds views likes comments
                 "2024-01-01T00:00:00Z")
        None None.

Definition num_cell (z : Z) : cell := Some (inject_Z z).

(** 2024-01-01, 2024-01-02 and 2024-01-03 at midnight UTC. *)
Definition jan1 : Z := 1704067200 * 1000000000.
Definition jan2 : Z := 1704153600 * 1000000000.
Definition jan3 : Z := 1704240000 * 1000000000.

Definition vid1 : Row :=
  raw_row "vid1" "Music" (DateString jan1)
          (num_cell 180) (num_cell 1000) (num_cell 100) (num_cell 10).

Definition vid2 : Row :=
  raw_row "vid2" "Gaming" (DateString jan2)
          (num_cell 600) (num_cell 5000) (num_cell 500) (num_cell 50).

Definition vid3 : Row :=
  raw_row "vid3" "Entertainment" (DateString jan3)
          (num_cell 300) (num_cell 2000) (num_cell 200) (num_cell 20).

Definition sample_data : DataFrame := [vid1; vid2; vid3].

(** A video with exactly 10,000 views, and one with none. *)
Definition ten_thousand_views : Row :=
  raw_row "vid4" "Gaming" (DateString jan1)
          (num_cell 600) (num_cell 10000) (num_cell 500) (num_cell 50).

Definition unseen : Row :=
  raw_row "vid5" "Gaming" (DateString jan1)
          (num_cell 600) (num_cell 0) (num_cell 0) (num_cell 0).

(** A video whose timestamp is not a date, one without a timestamp, and one
    without a duration. *)
Definition garbled : Row :=
  raw_row "vid6" "Gaming" (BadString "not a date")
          (num_cell 600) (num_cell 5000) (num_cell 500) (num_cell 50).

Definition undated : Row :=
  raw_row "vid7" "Gaming" NaT
          (num_cell 600) (num_cell 5000) (num_cell 500) (num_cell 50).

Definition unmeasured : Row :=
  raw_row "vid8" "Gaming" (DateString jan2)
          None (num_cell 5000) None (num_cell 50).

(** [transformer = DataTransformer(); transformer.data = df]. *)
Definition transformer_on (df : DataFrame) : World :=
  mkWorld [df] (mkSelf None (Some 0%nat) None).

(** Some instant on 2024-03-01. *)
Definition march1 : Z := 1709294400 * 1000000000.

End Fixtures.

(** ** YouTubeExtractor

    The parts of [src/extract.py] that do not talk to the network: the table
    of categories and the batching of [get_video_details].  The request to
    the API and the parsing of one item are parameters. *)

Module Extract.

Local Open Scope string_scope.
Local Open Scope nat_scope.
Local Open Scope list_scope.

(** [YouTubeExtractor.CATEGORIES]. *)
Definition CATEGORIES : list (string * string) :=
  [ ("10", "Music");
    ("20", "Gaming");
    ("22", "People & Blogs");
    ("24", "Entertainment");
    ("25", "News & Politics");
    ("27", "Education");
    ("28", "Science & Technology") ].

(** [dict.get(key, default)]. *)
Fixpoint dict_get (d : list (string * string)) (key default : string)
  : string :=
  match d with
  | [] => default
  | (k, v) :: d' => if String.eqb key k then v else dict_get d' key default
  end.

(** The [category_name] that [_parse_video] writes for a category id. *)
Definition category_name_of (category_id : string) : string :=
  dict_get CATEGORIES category_id "Unknown".

(** [range(start, stop, step)] for a positive step; it has at most [stop]
    elements, which bounds the recursion. *)
Fixpoint range_from (fuel start stop step : nat) : list nat :=
  match fuel with
  | O => []
  | S fuel' =>
      if start <? stop
      then start :: range_from fuel' (start + step) stop step
      else []
  end.

Definition range (start stop step : nat) : list nat :=
  range_from stop start stop step.

(** [l[i:j]] for [0 <= i <= j]. *)
Definition slice {A : Type} (l : list A) (i j : nat) : list A :=
  firstn (j - i) (skipn i l).

(** The batches of ids that [get_video_details] asks for, one request
    each. *)
Definition batches (video_ids : list string) : list (list string) :=
  map (fun i => slice video_ids i (i + 50))
      (range 0 (List.length video_ids) 50).

Section VideoDetails.

(** An item of a response and a parsed video. *)
Variables Item Video : Type.

(** [videos().list(id=','.join(batch)).execute()] followed by
    [response.get('items', [])]: the items, or nothing when the request
    raises HttpError. *)
Variable execute : list string -> option (list Item).

(** [_parse_video]. *)
Variable parse_video : Item -> Video.

Definition get_video_details (video_ids : list string) : list Video :=
  fold_left
    (fun videos i =>
       let batch := slice video_ids i (i + 50) in
       match execute batch with
       | Some items => videos ++ map parse_video items
       | None => videos
       end)
    (range 0 (List.length video_ids) 50)
    [].

End VideoDetails.

End Extract.

Unset Implicit Arguments.

(** ** Facts about float64 values *)

Module FloatFacts.

Import Float.
Local Open Scope Q_scope.

Lemma Qltb_true (a b : Q) : Qltb a b = true <-> a < b.
Proof.
  unfold Qltb. rewrite Qlt_alt.
  destruct (a ?= b); split; intros H; congruence.
Qed.

Lemma Qltb_false (a b : Q) : Qltb a b = false <-> b <= a.
Proof.
  rewrite <- Bool.not_true_iff_false, Qltb_true. split.
  - apply Qnot_lt_le.
  - apply Qle_not_lt.
Qed.

Lemma Qeqb0_true (a : Q) : Qeqb0 a = true <-> a == 0.
Proof.
  unfold Qeqb0. rewrite Qeq_alt.
  destruct (a ?= 0); split; intros H; congruence.
Qed.

Lemma Qeqb0_false (a : Q) : Qeqb0 a = false <-> ~ a == 0.
Proof.
  rewrite <- Bool.not_true_iff_false, Qeqb0_true. tauto.
Qed.

Lemma Qred_inject_Z (z : Z) : Qred (inject_Z z) = inject_Z z.
Proof.
  apply Qred_identity. simpl. apply Z.gcd_1_r.
Qed.

Lemma fin_integer (q : Q) (z : Z) : q == inject_Z z -> fin q = of_Z z.
Proof.
  intros H. unfold fin, of_Z.
  rewrite (Qred_complete _ _ H). now rewrite Qred_inject_Z.
Qed.

Lemma rint_comp (x y : Q) : x == y -> rint x = rint y.
Proof.
  intros H. unfold rint.
  rewrite (Qfloor_comp _ _ H).
  assert (E : (x - inject_Z (Qfloor y) ?= 1 # 2)
              = (y - inject_Z (Qfloor y) ?= 1 # 2)).
  { apply Qcompare_comp; [now rewrite H | reflexivity]. }
  now rewrite E.
Qed.

Lemma rint_floor (q : Q) : (Qfloor q <= rint q)%Z.
Proof.
  unfold rint.
  destruct (q - inject_Z (Qfloor q) ?= 1 # 2); [destruct (Z.even _)| |]; lia.
Qed.

Lemma rint_lower (q : Q) (z : Z) : inject_Z z <= q -> (z <= rint q)%Z.
Proof.
  intros H. apply Z.le_trans with (Qfloor q); [|apply rint_floor].
  rewrite <- (Qfloor_Z z). now apply Qfloor_resp_le.
Qed.

Lemma round_0 (q : Q) : round 0 (Fin q) = of_Z (rint q).
Proof.
  unfold round. simpl Z.of_nat. change (10 ^ 0)%Z with 1%Z.
  apply fin_integer.
  rewrite (rint_comp (q * inject_Z 1) q) by (unfold inject_Z; ring).
  unfold inject_Z. field.
Qed.

Lemma round_finite (d : nat) (x : num) :
  is_finite x = true -> is_finite (round d x) = true.
Proof. destruct x; simpl; auto. Qed.

Lemma leb_1_round_0 (x : num) :
  leb (of_Z 1) x = true -> leb (of_Z 1) (round 0 x) = true.
Proof.
  destruct x as [| |q|]; try (simpl; auto; fail).
  intros H. rewrite round_0. simpl in *.
  apply Bool.negb_true_iff in H. apply Qltb_false in H.
  apply Bool.negb_true_iff, Qltb_false.
  rewrite <- Zle_Qle. now apply rint_lower.
Qed.

Lemma leb_1_clip_lower (x : num) :
  isnan x = false -> leb (of_Z 1) (clip_lower (of_Z 1) x) = true.
Proof.
  destruct x as [| |q|]; simpl; try discriminate; auto.
  intros _. unfold clip_lower. simpl.
  destruct (Qltb q (inject_Z 1)) eqn:E; simpl; [reflexivity|].
  now rewrite E.
Qed.

(** Finite arguments give finite results, division by zero apart. *)

Lemma add_finite (x y : num) :
  is_finite x = true -> is_finite y = true -> is_finite (add x y) = true.
Proof. destruct x, y; simpl; intros; auto; discriminate. Qed.

Lemma mul_finite (x y : num) :
  is_finite x = true -> is_finite y = true -> is_finite (mul x y) = true.
Proof. destruct x, y; simpl; intros; auto; discriminate. Qed.

Lemma div_finite (x : num) (b : Q) :
  is_finite x = true -> ~ b == 0 -> is_finite (div x (Fin b)) = true.
Proof.
  destruct x as [| |a|]; simpl; try discriminate.
  intros _ Hb. apply Qeqb0_false in Hb. now rewrite Hb.
Qed.

Lemma clip_lower_finite (l x : num) :
  is_finite l = true -> is_finite x = true ->
  is_finite (clip_lower l x) = true.
Proof. unfold clip_lower. destruct (ltb x l); auto. Qed.

Lemma fillna_finite (v x : num) :
  is_finite v = true -> isnan x = true \/ is_finite x = true ->
  is_finite (fillna v x) = true.
Proof.
  unfold fillna. intros Hv [H | H]; [now rewrite H|].
  destruct x; simpl in *; auto.
Qed.

Lemma replace_0_1_nonzero (q : Q) :
  exists b, replace_0_1 (Fin q) = Fin b /\ ~ b == 0.
Proof.
  unfold replace_0_1. destruct (Qeqb0 q) eqn:E.
  - exists 1. split; [reflexivity | discriminate].
  - exists q. split; [reflexivity | now apply Qeqb0_false].
Qed.

Lemma replace_0_1_zero (q : Q) : q == 0 -> replace_0_1 (Fin q) = of_Z 1.
Proof.
  intros H. unfold replace_0_1. apply Qeqb0_true in H. now rewrite H.
Qed.

Lemma fin_finite (q : Q) : is_finite (fin q) = true.
Proof. reflexivity. Qed.

Lemma of_Z_finite (z : Z) : is_finite (of_Z z) = true.
Proof. reflexivity. Qed.

End FloatFacts.

(** ** Facts about the store *)

Module StoreFacts.

Import Pandas Store.

Lemma nth_error_alloc (A : Type) (h : list A) (x : A) :
  nth_error (h ++ [x]) (List.length h) = Some x.
Proof.
  induction h as [|y h IH]; simpl; auto.
Qed.

Lemma update_alloc (A : Type) (h : list A) (f : A -> A) (x : A) :
  update (List.length h) f (h ++ [x]) = h ++ [f x].
Proof.
  induction h as [|y h IH]; simpl; [reflexivity|].
  now rewrite IH.
Qed.

Lemma nth_error_old (A : Type) (h l : list A) (r : nat) (x : A) :
  nth_error h r = Some x -> nth_error (h ++ l) r = Some x.
Proof.
  revert r; induction h as [|y h IH]; intros [|r]; simpl; try discriminate; auto.
Qed.

(** Running the primitives. *)

Lemma bind_ok {A B : Type} {c : M A} {k : A -> M B} {w w' : World} {a : A} :
  c w = (inr a, w') -> bind c k w = k a w'.
Proof. unfold bind; now intros ->. Qed.

Lemma bind_raise {A B : Type} {c : M A} {k : A -> M B} {w w' : World}
      {e : exn} :
  c w = (inl e, w') -> bind c k w = (inl e, w').
Proof. unfold bind; now intros ->. Qed.

Lemma attr_data_run h f d p :
  attr_data (mkWorld h (mkSelf f (Some d) p))
  = (inr d, mkWorld h (mkSelf f (Some d) p)).
Proof. reflexivity. Qed.

Lemma attr_processed_run h f d p :
  attr_processed (mkWorld h (mkSelf f d (Some p)))
  = (inr p, mkWorld h (mkSelf f d (Some p))).
Proof. reflexivity. Qed.

Lemma load_run h s r df :
  nth_error h r = Some df -> load r (mkWorld h s) = (inr df, mkWorld h s).
Proof. unfold load; simpl; now intros ->. Qed.

Lemma copy_run h s r df :
  nth_error h r = Some df ->
  copy r (mkWorld h s) = (inr (List.length h), mkWorld (h ++ [df]) s).
Proof.
  intros H. unfold copy. now rewrite (bind_ok (load_run h s r df H)).
Qed.

Lemma derive_run h s r df f :
  nth_error h r = Some df ->
  derive r f (mkWorld h s) = (inr (List.length h), mkWorld (h ++ [f df]) s).
Proof.
  intros H. unfold derive. now rewrite (bind_ok (load_run h s r df H)).
Qed.

Lemma assign_fresh_run h s df f :
  assign (List.length h) f (mkWorld (h ++ [df]) s)
  = (inr tt, mkWorld (h ++ [map f df]) s).
Proof.
  unfold assign, store; simpl. now rewrite update_alloc.
Qed.

Lemma store_fresh_run h s df f :
  store (List.length h) f (mkWorld (h ++ [df]) s)
  = (inr tt, mkWorld (h ++ [f df]) s).
Proof.
  unfold store; simpl. now rewrite update_alloc.
Qed.

End StoreFacts.

(** ** Facts about the pandas operations *)

Module PandasFacts.

Import Float Pandas.

Lemma drop_duplicates_from_In (seen : list string) (df : DataFrame) (r : Row) :
  In r (drop_duplicates_from seen df) -> In r df.
Proof.
  revert seen; induction df as [|x df IH]; intros seen; simpl; auto.
  destruct (existsb _ seen).
  - intros H; right; eauto.
  - intros [H | H]; [now left | right; eauto].
Qed.

Lemma drop_duplicates_In (df : DataFrame) (r : Row) :
  In r (drop_duplicates df) -> In r df.
Proof. apply drop_duplicates_from_In. Qed.

Lemma to_datetime_cell_is_datetime (c c' : time_cell) :
  to_datetime_cell c = inr c' -> is_datetime c' = true.
Proof.
  destruct c; simpl; intros H; inversion H; reflexivity.
Qed.

Lemma to_datetime_Forall2 (col out : list time_cell) :
  to_datetime col = inr out ->
  Forall2 (fun c c' => to_datetime_cell c = inr c') col out.
Proof.
  revert out; induction col as [|c col IH]; simpl; intros out H.
  - inversion H; constructor.
  - destruct (to_datetime_cell c) as [e | c'] eqn:Ec; [discriminate|].
    destruct (to_datetime col) as [e | out'] eqn:Eo; [discriminate|].
    inversion H; subst. constructor; auto.
Qed.

Lemma to_datetime_raises (col : list time_cell) (s : string) :
  In (BadString s) col -> exists s', to_datetime col = inl (DateParseError s').
Proof.
  induction col as [|c col IH]; simpl; [tauto|].
  intros [-> | H]; simpl; [eauto|].
  destruct (to_datetime_cell c) as [e | c'] eqn:Ec.
  - destruct c; simpl in Ec; inversion Ec; eauto.
  - destruct (IH H) as [s' ->]. eauto.
Qed.

Lemma setitem_In (C : Type) (upd : Row -> C -> Row) (g : Row -> time_cell)
      (P : time_cell -> C -> Prop) (df : DataFrame) (col : list C) (row : Row) :
  Forall2 P (map g df) col ->
  In row (setitem upd df col) ->
  exists r c, In r df /\ P (g r) c /\ row = upd r c.
Proof.
  revert col; induction df as [|r df IH]; intros col HF; simpl.
  - tauto.
  - inversion HF as [|? c ? col' Hc HF']; subst. simpl.
    intros [<- | H].
    + exists r, c; auto.
    + destruct (IH _ HF' H) as (r' & c' & Hin & HP & ->).
      exists r', c'; auto.
Qed.

Lemma setitem_length (C : Type) (upd : Row -> C -> Row) (df : DataFrame)
      (col : list C) :
  List.length col = List.length df ->
  List.length (setitem upd df col) = List.length df.
Proof.
  revert col; induction df as [|r df IH]; intros [|c col]; simpl; auto.
Qed.

Lemma map_dict_finite (d : list (string * num)) (k : string) :
  Forall (fun kv => is_finite (snd kv) = true) d ->
  isnan (map_dict d k) = true \/ is_finite (map_dict d k) = true.
Proof.
  induction 1 as [|[k' v] d Hv _ IH]; simpl; [now left|].
  destruct (String.eqb k k'); [now right | exact IH].
Qed.

(** Where [cut] puts a positive number, for four and for five edges. *)

Lemma Qle_bool_false (a b : Q) : Qle_bool a b = false <-> (b < a)%Q.
Proof.
  rewrite <- Bool.not_true_iff_false, Qle_bool_iff. split.
  - apply Qnot_le_lt.
  - apply Qlt_not_le.
Qed.

End PandasFacts.

(** ** Running the methods *)

Module TransformFacts.

Import Float Pandas Store Transform StoreFacts PandasFacts.

Lemma positive_duration_fillna (r : Row) :
  positive_duration (numeric_fillna r) = positive_duration r.
Proof. reflexivity. Qed.

Lemma positive_duration_Some (r : Row) :
  positive_duration r = true ->
  exists q, duration_seconds (video r) = Some q /\ (0 < q)%Q.
Proof.
  unfold positive_duration, gtb.
  destruct (duration_seconds (video r)) as [q|]; simpl; [|discriminate].
  intros H. exists q; split; [reflexivity|].
  now apply FloatFacts.Qltb_true.
Qed.

(** Every row of the cleaned table comes from a raw row of positive duration:
    its counters filled, its timestamp parsed. *)
Lemma cleaned_rows (df out : DataFrame) (row : Row) :
  cleaned df = inr out ->
  In row out ->
  exists raw c,
    In raw df /\ positive_duration raw = true /\
    to_datetime_cell (published_at (video raw)) = inr c /\
    row = set_published_at (numeric_fillna raw) c.
Proof.
  unfold cleaned. intros H Hin.
  destruct (to_datetime _) as [e | col] eqn:Ec; [discriminate|].
  inversion H; subst out; clear H.
  apply to_datetime_Forall2 in Ec.
  destruct (setitem_In _ set_published_at _ _ _ _ row Ec Hin)
    as (r & c & Hr & Hc & ->).
  apply filter_In in Hr. destruct Hr as [Hr Hpos].
  apply in_map_iff in Hr. destruct Hr as (raw & <- & Hraw).
  exists raw, c. repeat split; auto.
  now apply drop_duplicates_In.
Qed.

Lemma cleaned_raises (df : DataFrame) (row : Row) (s : string) :
  In row (filter positive_duration (drop_duplicates df)) ->
  published_at (video row) = BadString s ->
  exists s', cleaned df = inl (DateParseError s').
Proof.
  intros Hin Hbad. unfold cleaned.
  destruct (to_datetime_raises
              (map (fun r => published_at (video r))
                   (filter positive_duration
                      (map numeric_fillna (drop_duplicates df)))) s)
    as [s' ->]; [|eauto].
  apply in_map_iff. exists (numeric_fillna row). split; [exact Hbad|].
  apply filter_In in Hin. destruct Hin as [Hin Hpos].
  apply filter_In. split; [|exact Hpos].
  now apply in_map.
Qed.

Lemma clean_data_returns (h : list DataFrame) f d p (df out : DataFrame) :
  nth_error h d = Some df ->
  cleaned df = inr out ->
  clean_data (mkWorld h (mkSelf f (Some d) p)) =
    (inr (List.length h + 2)%nat,
     mkWorld (((h ++ [df])
                 ++ [map numeric_fillna (drop_duplicates df)]) ++ [out])
             (mkSelf f (Some (List.length h + 2)%nat) p)).
Proof.
  intros Hdf Hc. unfold clean_data, cleaned in *.
  rewrite (bind_ok (attr_data_run _ _ _ _)).
  rewrite (bind_ok (copy_run _ _ _ _ Hdf)).
  rewrite (bind_ok (derive_run _ _ _ _ drop_duplicates (nth_error_alloc _ h df))).
  rewrite (bind_ok (assign_fresh_run _ _ _ _)).
  rewrite (bind_ok (derive_run _ _ _ _ (filter positive_duration)
                               (nth_error_alloc _ _ _))).
  rewrite (bind_ok (load_run _ _ _ _ (nth_error_alloc _ _ _))).
  destruct (to_datetime _) as [e | col]; [discriminate|].
  inversion Hc; subst out; clear Hc.
  unfold lift at 1, bind at 1.
  rewrite (bind_ok (store_fresh_run _ _ _ _)).
  unfold bind, set_data, ret; simpl.
  rewrite !length_app; simpl.
  replace (List.length h + 1 + 1)%nat with (List.length h + 2)%nat by lia.
  reflexivity.
Qed.

Lemma clean_data_raises (h : list DataFrame) f d p (df : DataFrame) (e : exn) :
  nth_error h d = Some df ->
  cleaned df = inl e ->
  clean_data (mkWorld h (mkSelf f (Some d) p)) =
    (inl e,
     mkWorld (((h ++ [df])
                 ++ [map numeric_fillna (drop_duplicates df)])
                ++ [filter positive_duration
                      (map numeric_fillna (drop_duplicates df))])
             (mkSelf f (Some d) p)).
Proof.
  intros Hdf Hc. unfold clean_data, cleaned in *.
  rewrite (bind_ok (attr_data_run _ _ _ _)).
  rewrite (bind_ok (copy_run _ _ _ _ Hdf)).
  rewrite (bind_ok (derive_run _ _ _ _ drop_duplicates (nth_error_alloc _ h df))).
  rewrite (bind_ok (assign_fresh_run _ _ _ _)).
  rewrite (bind_ok (derive_run _ _ _ _ (filter positive_duration)
                               (nth_error_alloc _ _ _))).
  rewrite (bind_ok (load_run _ _ _ _ (nth_error_alloc _ _ _))).
  destruct (to_datetime _) as [e' | col]; [|discriminate].
  inversion Hc; subst e'; clear Hc.
  reflexivity.
Qed.

Lemma calculate_metrics_returns (h : list DataFrame) f d p (df : DataFrame) :
  nth_error h d = Some df ->
  calculate_metrics (mkWorld h (mkSelf f (Some d) p)) =
    (inr (List.length h),
     mkWorld (h ++ [map add_metrics df])
             (mkSelf f (Some d) (Some (List.length h)))).
Proof.
  intros Hdf. unfold calculate_metrics.
  rewrite (bind_ok (attr_data_run _ _ _ _)).
  rewrite (bind_ok (copy_run _ _ _ _ Hdf)).
  rewrite (bind_ok (assign_fresh_run _ _ _ _)).
  reflexivity.
Qed.

Lemma add_features_returns (now : Z) (h : list DataFrame) f d p
      (df : DataFrame) :
  nth_error h p = Some df ->
  forallb has_datetime df = true ->
  forallb has_metrics df = true ->
  add_features now (mkWorld h (mkSelf f d (Some p))) =
    (inr (List.length h),
     mkWorld (h ++ [map (add_feature_columns now) df])
             (mkSelf f d (Some (List.length h)))).
Proof.
  intros Hdf Ht Hm. unfold add_features.
  rewrite (bind_ok (attr_processed_run _ _ _ _)).
  rewrite (bind_ok (copy_run _ _ _ _ Hdf)).
  rewrite (bind_ok (load_run _ _ _ _ (nth_error_alloc _ _ _))).
  rewrite Ht, Hm. change (negb true) with false. cbv iota.
  rewrite (bind_ok (assign_fresh_run _ _ _ _)).
  reflexivity.
Qed.

End TransformFacts.

(** ** The derived columns of one row *)

Module RowFacts.

Import Float Pandas Store Transform FloatFacts PandasFacts.
Local Open Scope string_scope.

Ltac order_cases :=
  repeat match goal with
         | H : Qltb _ _ = true |- _ => apply Qltb_true in H
         | H : Qltb _ _ = false |- _ => apply Qltb_false in H
         | H : Qle_bool _ _ = true |- _ => apply Qle_bool_iff in H
         | H : Qle_bool _ _ = false |- _ => apply Qle_bool_false in H
         end;
  unfold inject_Z in *;
  try reflexivity; exfalso; lra.

Lemma cut_tier (q : Q) :
  (0 < q)%Q ->
  cut tier_bins tier_labels (Fin q) =
    Some (if Qle_bool q 10000 then "Micro"
          else if Qle_bool q 100000 then "Small"
          else if Qle_bool q 1000000 then "Medium"
          else if Qle_bool q 10000000 then "Large"
          else "Enterprise").
Proof.
  intros Hq. unfold cut, tier_bins, of_Z; simpl.
  destruct (Qltb (inject_Z 0) q) eqn:E0; simpl; [|order_cases].
  destruct (Qltb (inject_Z 10000) q) eqn:E1; simpl;
    [|destruct (Qle_bool q 10000) eqn:L1; order_cases].
  destruct (Qltb (inject_Z 100000) q) eqn:E2; simpl;
    [|destruct (Qle_bool q 10000) eqn:L1;
      destruct (Qle_bool q 100000) eqn:L2; order_cases].
  destruct (Qltb (inject_Z 1000000) q) eqn:E3; simpl;
    [|destruct (Qle_bool q 10000) eqn:L1;
      destruct (Qle_bool q 100000) eqn:L2;
      destruct (Qle_bool q 1000000) eqn:L3; order_cases].
  destruct (Qle_bool q 10000) eqn:L1;
    destruct (Qle_bool q 100000) eqn:L2;
    destruct (Qle_bool q 1000000) eqn:L3;
    destruct (Qle_bool q 10000000) eqn:L4;
    destruct (Qltb (inject_Z 10000000) q) eqn:E4; simpl; order_cases.
Qed.

Lemma cut_tier_no_bin (q : Q) :
  (q <= 0)%Q -> cut tier_bins tier_labels (Fin q) = None.
Proof.
  intros Hq. unfold cut, tier_bins, of_Z; simpl.
  destruct (Qltb (inject_Z 0) q) eqn:E0; simpl; order_cases.
Qed.

Lemma cut_duration (q : Q) :
  (0 < q)%Q ->
  cut duration_bins duration_labels (Fin q) =
    Some (if Qle_bool q 5 then "Short"
          else if Qle_bool q 15 then "Medium"
          else if Qle_bool q 30 then "Long"
          else "Very Long").
Proof.
  intros Hq. unfold cut, duration_bins, of_Z; simpl.
  destruct (Qltb (inject_Z 0) q) eqn:E0; simpl; [|order_cases].
  destruct (Qltb (inject_Z 5) q) eqn:E1; simpl;
    [|destruct (Qle_bool q 5) eqn:L1; order_cases].
  destruct (Qltb (inject_Z 15) q) eqn:E2; simpl;
    [|destruct (Qle_bool q 5) eqn:L1;
      destruct (Qle_bool q 15) eqn:L2; order_cases].
  destruct (Qle_bool q 5) eqn:L1;
    destruct (Qle_bool q 15) eqn:L2;
    destruct (Qle_bool q 30) eqn:L3;
    destruct (Qltb (inject_Z 30) q) eqn:E3; simpl; order_cases.
Qed.

Lemma Qle_bool_inject_Z (a b : Z) :
  Qle_bool (inject_Z a) (inject_Z b) = (a <=? b)%Z.
Proof.
  unfold Qle_bool, inject_Z; simpl. now rewrite !Z.mul_1_r.
Qed.

Create HintDb finite.

#[local] Hint Resolve add_finite mul_finite clip_lower_finite round_finite
  fin_finite of_Z_finite : finite.

Lemma category_rates_finite :
  Forall (fun kv => is_finite (snd kv) = true) category_rates.
Proof. repeat constructor. Qed.

Lemma tier_multipliers_finite :
  Forall (fun kv => is_finite (snd kv) = true) tier_multipliers.
Proof. repeat constructor. Qed.

Lemma base_ad_rate_finite (v : VideoRecord) :
  is_finite (base_ad_rate (metrics_of v)) = true.
Proof.
  apply fillna_finite; [reflexivity|].
  apply map_dict_finite, category_rates_finite.
Qed.

Lemma tier_multiplier_finite (v : VideoRecord) :
  is_finite (tier_multiplier (metrics_of v)) = true.
Proof.
  apply fillna_finite; [reflexivity|].
  apply map_dict_finite, tier_multipliers_finite.
Qed.

Lemma ad_density_finite (v : VideoRecord) :
  is_finite (ad_density (metrics_of v)) = true.
Proof.
  apply mul_finite; [apply base_ad_rate_finite | apply tier_multiplier_finite].
Qed.

#[local] Hint Resolve base_ad_rate_finite tier_multiplier_finite
  ad_density_finite : finite.

Lemma duration_minutes_eq (v : VideoRecord) (q : Q) :
  duration_seconds v = Some q ->
  duration_minutes (metrics_of v) = fin (q / 60).
Proof.
  intros H. unfold metrics_of; simpl. now rewrite H.
Qed.

Lemma duration_minutes_finite (v : VideoRecord) (q : Q) :
  duration_seconds v = Some q ->
  is_finite (duration_minutes (metrics_of v)) = true.
Proof.
  intros H. now rewrite (duration_minutes_eq v q H).
Qed.

Lemma is_finite_not_nan (x : num) : is_finite x = true -> isnan x = false.
Proof. destruct x; simpl; auto; discriminate. Qed.

(** A present duration is enough for one ad at least. *)
Lemma estimated_ads_ge_1 (v : VideoRecord) (q : Q) :
  duration_seconds v = Some q ->
  leb (of_Z 1) (estimated_ads (metrics_of v)) = true.
Proof.
  intros H.
  apply leb_1_round_0, leb_1_clip_lower, is_finite_not_nan.
  apply mul_finite; [apply ad_density_finite|].
  now apply duration_minutes_finite with q.
Qed.

Lemma estimated_ads_finite (v : VideoRecord) (q : Q) :
  duration_seconds v = Some q ->
  is_finite (estimated_ads (metrics_of v)) = true.
Proof.
  intros H.
  apply round_finite, clip_lower_finite; [reflexivity|].
  apply mul_finite; [apply ad_density_finite|].
  now apply duration_minutes_finite with q.
Qed.

Lemma ad_ratio_finite (v : VideoRecord) (q : Q) :
  duration_seconds v = Some q -> (0 < q)%Q ->
  is_finite (ad_ratio (metrics_of v)) = true.
Proof.
  intros H Hq.
  pose proof (estimated_ads_finite v q H) as He.
  unfold metrics_of in *; simpl in *. rewrite H in *. simpl of_cell in *.
  apply round_finite, mul_finite; [|reflexivity].
  apply div_finite; [|lra].
  apply mul_finite; [exact He | reflexivity].
Qed.

Lemma engagement_rate_finite (v : VideoRecord) (a b c : Q) :
  view_count v = Some a -> like_count v = Some b -> comment_count v = Some c ->
  is_finite (engagement_rate (metrics_of v)) = true.
Proof.
  intros Ha Hb Hc. unfold metrics_of; simpl. rewrite Ha, Hb, Hc.
  simpl of_cell.
  destruct (replace_0_1_nonzero a) as (d & -> & Hd).
  apply round_finite, mul_finite; [|reflexivity].
  now apply div_finite.
Qed.

(** With no views the engagement rate is taken over one view. *)
Lemma engagement_rate_no_views (v : VideoRecord) (a : Q) :
  view_count v = Some a -> (a == 0)%Q ->
  engagement_rate (metrics_of v) =
    round 3 (mul (div (add (of_cell (like_count v)) (of_cell (comment_count v)))
                      (of_Z 1))
                 (of_Z 100)).
Proof.
  intros Ha H0. unfold metrics_of; simpl. rewrite Ha. simpl of_cell.
  now rewrite (replace_0_1_zero a H0).
Qed.

Lemma revenue_pressure_finite (v : VideoRecord) (q a : Q) :
  duration_seconds v = Some q -> (0 < q)%Q -> view_count v = Some a ->
  is_finite (revenue_pressure (metrics_of v)) = true.
Proof.
  intros H Hq Ha.
  pose proof (ad_ratio_finite v q H Hq) as Hr.
  pose proof (ad_density_finite v) as Hd.
  assert (E : revenue_pressure (metrics_of v) =
              round 3
                (add (add (mul (ad_density (metrics_of v)) (fin 0.5))
                          (mul (mul (ad_ratio (metrics_of v)) (fin 0.01))
                               (fin 0.3)))
                     (mul (div (of_cell (view_count v)) (fin 1e6)) (fin 0.2))))
    by (unfold metrics_of; cbn [revenue_pressure ad_density ad_ratio];
        reflexivity).
  rewrite E, Ha. cbn [of_cell].
  apply round_finite, add_finite; [apply add_finite|].
  - apply mul_finite; [exact Hd | reflexivity].
  - apply mul_finite; [apply mul_finite; [exact Hr|]|]; reflexivity.
  - apply mul_finite; [|reflexivity].
    apply div_finite; [reflexivity | discriminate].
Qed.

Lemma metrics_all_finite (v : VideoRecord) (q a b c : Q) :
  duration_seconds v = Some q -> (0 < q)%Q ->
  view_count v = Some a -> like_count v = Some b -> comment_count v = Some c ->
  all_finite (metrics_of v) = true.
Proof.
  intros H Hq Ha Hb Hc. unfold all_finite, forallb.
  rewrite (duration_minutes_finite v q H), base_ad_rate_finite,
    tier_multiplier_finite, ad_density_finite, (estimated_ads_finite v q H),
    (ad_ratio_finite v q H Hq), (engagement_rate_finite v a b c Ha Hb Hc),
    (revenue_pressure_finite v q a H Hq Ha).
  assert (Ht : is_finite (ad_time_seconds (metrics_of v)) = true).
  { apply mul_finite; [apply (estimated_ads_finite v q H) | reflexivity]. }
  now rewrite Ht.
Qed.

Lemma duration_category_some (now : Z) (v : VideoRecord) (q : Q) :
  duration_seconds v = Some q -> (0 < q)%Q ->
  duration_category (features_of now v (metrics_of v)) <> None.
Proof.
  intros H Hq. unfold features_of. cbn [duration_category].
  rewrite (duration_minutes_eq v q H). unfold fin.
  rewrite cut_duration; [discriminate|].
  rewrite Qred_correct. apply Qlt_shift_div_l; lra.
Qed.

Lemma features_finite (now : Z) (v : VideoRecord) (m : Metrics) (a : Q) (t : Z) :
  view_count v = Some a -> published_at v = Timestamp t ->
  is_finite (age_days (features_of now v m)) = true /\
  is_finite (views_per_day (features_of now v m)) = true.
Proof.
  intros Ha Ht. unfold features_of. cbn [age_days views_per_day].
  rewrite Ha, Ht. cbn [days_since of_cell].
  split; [reflexivity|].
  destruct (replace_0_1_nonzero (inject_Z ((now - t) / ns_per_day)))
    as (d & Hd & Hnz).
  unfold of_Z. rewrite Hd.
  apply round_finite. now apply div_finite.
Qed.

End RowFacts.

(** ** The stages in sequence *)

Module PipelineFacts.

Import Float Pandas Store Transform StoreFacts PandasFacts TransformFacts.

Lemma nth_error_third (A : Type) (h : list A) (a b c : A) :
  nth_error (((h ++ [a]) ++ [b]) ++ [c]) (List.length h + 2) = Some c.
Proof.
  replace (List.length h + 2)%nat with (List.length ((h ++ [a]) ++ [b])).
  - apply nth_error_alloc.
  - rewrite !length_app; simpl; lia.
Qed.

Lemma nth_error_second (A : Type) (h : list A) (a b : A) :
  nth_error ((h ++ [a]) ++ [b]) (S (List.length h)) = Some b.
Proof.
  replace (S (List.length h)) with (List.length (h ++ [a])).
  - apply nth_error_alloc.
  - rewrite length_app; simpl; lia.
Qed.

(** What a successful [clean_data] started from, and what it left. *)
Lemma clean_data_inv (w w1 : World) (c : ref) :
  clean_data w = (inr c, w1) ->
  exists d df out,
    data (self w) = Some d /\ table w d = Some df /\ cleaned df = inr out /\
    c = (List.length (heap w) + 2)%nat /\
    w1 = mkWorld (((heap w ++ [df])
                     ++ [map numeric_fillna (drop_duplicates df)]) ++ [out])
                 (mkSelf (filepath (self w)) (Some c) (processed (self w))).
Proof.
  destruct w as [h [f [d|] p]]; unfold table;
    cbn [heap self data filepath processed].
  - destruct (nth_error h d) as [df|] eqn:Hdf.
    + destruct (cleaned df) as [e | out] eqn:Hc.
      * rewrite (clean_data_raises h f d p df e Hdf Hc). discriminate.
      * rewrite (clean_data_returns h f d p df out Hdf Hc).
        intros H; inversion H; subst. exists d, df, out. auto.
    + unfold clean_data.
      rewrite (bind_ok (attr_data_run _ _ _ _)).
      unfold copy, load, bind; simpl. rewrite Hdf. discriminate.
  - unfold clean_data, bind, attr_data; simpl. discriminate.
Qed.

Lemma fillna_cell_some (v : Q) (c : cell) : exists a, fillna_cell v c = Some a.
Proof. destruct c as [a|]; simpl; eauto. Qed.

(** The shape of a cleaned row: a positive duration, counters present, a
    timestamp or NaT. *)
Lemma cleaned_row_shape (df out : DataFrame) (row : Row) :
  cleaned df = inr out ->
  In row out ->
  (exists q, duration_seconds (video row) = Some q /\ (0 < q)%Q) /\
  (exists a, view_count (video row) = Some a) /\
  (exists b, like_count (video row) = Some b) /\
  (exists c, comment_count (video row) = Some c) /\
  is_datetime (published_at (video row)) = true.
Proof.
  intros Hc Hin.
  destruct (cleaned_rows df out row Hc Hin) as (raw & c & _ & Hpos & Ht & ->).
  simpl. repeat split.
  - now apply positive_duration_Some.
  - apply fillna_cell_some.
  - apply fillna_cell_some.
  - apply fillna_cell_some.
  - now apply to_datetime_cell_is_datetime with (published_at (video raw)).
Qed.

Lemma cleaned_has_datetime (df out : DataFrame) :
  cleaned df = inr out -> forallb has_datetime out = true.
Proof.
  intros Hc. apply forallb_forall. intros row Hin.
  now destruct (cleaned_row_shape df out row Hc Hin) as (_ & _ & _ & _ & H).
Qed.

Lemma has_datetime_add_metrics (df : DataFrame) :
  forallb has_datetime (map add_metrics df) = forallb has_datetime df.
Proof.
  induction df as [|r df IH]; simpl; [reflexivity|]. now rewrite IH.
Qed.

Lemma has_metrics_add_metrics (df : DataFrame) :
  forallb has_metrics (map add_metrics df) = true.
Proof.
  induction df as [|r df IH]; simpl; auto.
Qed.

Lemma video_add_metrics (df : DataFrame) :
  map video (map add_metrics df) = map video df.
Proof.
  rewrite map_map. apply map_ext. reflexivity.
Qed.

Lemma video_add_feature_columns (now : Z) (df : DataFrame) :
  map video (map (add_feature_columns now) df) = map video df.
Proof.
  rewrite map_map. apply map_ext. intros r.
  unfold add_feature_columns. now destruct (metrics r).
Qed.

(** [calculate_metrics] then [add_features] on a table whose timestamps are
    parsed: both return, each allocates one table. *)
Lemma metrics_then_features (now : Z) (h : list DataFrame) f d p
      (df : DataFrame) :
  nth_error h d = Some df ->
  forallb has_datetime df = true ->
  calculate_metrics (mkWorld h (mkSelf f (Some d) p)) =
    (inr (List.length h),
     mkWorld (h ++ [map add_metrics df])
             (mkSelf f (Some d) (Some (List.length h)))) /\
  add_features now (mkWorld (h ++ [map add_metrics df])
                            (mkSelf f (Some d) (Some (List.length h)))) =
    (inr (S (List.length h)),
     mkWorld ((h ++ [map add_metrics df])
                ++ [map (add_feature_columns now) (map add_metrics df)])
             (mkSelf f (Some d) (Some (S (List.length h))))).
Proof.
  intros Hdf Ht. split.
  - now apply calculate_metrics_returns.
  - rewrite (add_features_returns now _ f (Some d) (List.length h)
               (map add_metrics df)).
    + rewrite length_app; simpl. now rewrite Nat.add_1_r.
    + apply nth_error_alloc.
    + now rewrite has_datetime_add_metrics.
    + apply has_metrics_add_metrics.
Qed.

End PipelineFacts.

(** ** Properties of the stages *)

Module Properties.

Import Float Pandas Store Transform Fixtures.
Import FloatFacts StoreFacts PandasFacts TransformFacts RowFacts PipelineFacts.
Local Open Scope string_scope.
Local Open Scope list_scope.

(** The table a successful [clean_data] returns is the cleaned image of the
    table it started from. *)
Lemma clean_data_table (w w1 : World) (c : ref) (out : DataFrame) :
  clean_data w = (inr c, w1) ->
  table w1 c = Some out ->
  exists d df, data (self w) = Some d /\ table w d = Some df /\
               cleaned df = inr out.
Proof.
  intros Hrun Hout.
  destruct (clean_data_inv w w1 c Hrun) as (d & df & out' & Hd & Hdf & Hc & -> & ->).
  unfold table in Hout; cbn [heap] in Hout.
  rewrite nth_error_third in Hout. inversion Hout; subst out'.
  exists d, df. auto.
Qed.

(** C8.  Every record that [clean_data] emits has a duration that is present
    and strictly greater than 0, whatever the raw table was. *)
Theorem clean_data_positive_duration
        (w w1 : World) (c : ref) (out : DataFrame) (row : Row) :
  clean_data w = (inr c, w1) ->
  table w1 c = Some out ->
  In row out ->
  exists q, duration_seconds (video row) = Some q /\ (0 < q)%Q.
Proof.
  intros Hrun Hout Hin.
  destruct (clean_data_table w w1 c out Hrun Hout) as (d & df & _ & _ & Hc).
  now destruct (cleaned_row_shape df out row Hc Hin) as (H & _).
Qed.

Lemma clean_data_positive_duration_witness :
  exists q,
    duration_seconds
      (video (set_published_at (numeric_fillna vid2) (Timestamp jan2)))
    = Some q /\ (0 < q)%Q.
Proof.
  apply (clean_data_positive_duration
           (transformer_on [vid1; unmeasured; vid2])
           (snd (clean_data (transformer_on [vid1; unmeasured; vid2])))
           3%nat
           [set_published_at (numeric_fillna vid1) (Timestamp jan1);
            set_published_at (numeric_fillna vid2) (Timestamp jan2)]).
  - vm_compute. reflexivity.
  - vm_compute. reflexivity.
  - simpl. auto.
Defined.

(** C10.  A raw record whose duration is missing is left out by
    [clean_data]: no cleaned row has a missing duration, no cleaned row is
    the image of such a record, and every cleaned row is the image of a raw
    record whose duration is present and strictly positive. *)
Theorem clean_data_drops_missing_duration
        (w w1 : World) (d c : ref) (df out : DataFrame) :
  data (self w) = Some d ->
  table w d = Some df ->
  clean_data w = (inr c, w1) ->
  table w1 c = Some out ->
  (forall row, In row out -> duration_seconds (video row) <> None) /\
  (forall raw t, In raw df -> duration_seconds (video raw) = None ->
                 ~ In (set_published_at (numeric_fillna raw) t) out) /\
  (forall row, In row out ->
     exists raw t q,
       In raw df /\ row = set_published_at (numeric_fillna raw) t /\
       duration_seconds (video raw) = Some q /\ (0 < q)%Q).
Proof.
  intros Hd Hdf Hrun Hout.
  destruct (clean_data_table w w1 c out Hrun Hout) as (d' & df' & Hd' & Hdf' & Hc).
  rewrite Hd in Hd'; inversion Hd'; subst d'.
  rewrite Hdf in Hdf'; inversion Hdf'; subst df'.
  assert (Hpos : forall row, In row out ->
                 exists q, duration_seconds (video row) = Some q /\ (0 < q)%Q).
  { intros row Hin.
    now destruct (cleaned_row_shape df out row Hc Hin) as (H & _). }
  repeat split.
  - intros row Hin. destruct (Hpos row Hin) as (q & -> & _). discriminate.
  - intros raw t _ Hnone Hin.
    destruct (Hpos _ Hin) as (q & Hq & _). simpl in Hq. congruence.
  - intros row Hin.
    destruct (cleaned_rows df out row Hc Hin) as (raw & t & Hraw & Hp & _ & ->).
    destruct (positive_duration_Some raw Hp) as (q & Hq & Hlt).
    exists raw, t, q. auto.
Qed.

Lemma clean_data_drops_missing_duration_witness :
  let out := [set_published_at (numeric_fillna vid1) (Timestamp jan1);
              set_published_at (numeric_fillna vid2) (Timestamp jan2)] in
  (forall row, In row out -> duration_seconds (video row) <> None) /\
  (forall raw t, In raw [vid1; unmeasured; vid2] ->
                 duration_seconds (video raw) = None ->
                 ~ In (set_published_at (numeric_fillna raw) t) out) /\
  (forall row, In row out ->
     exists raw t q,
       In raw [vid1; unmeasured; vid2] /\
       row = set_published_at (numeric_fillna raw) t /\
       duration_seconds (video raw) = Some q /\ (0 < q)%Q).
Proof.
  apply (clean_data_drops_missing_duration
           (transformer_on [vid1; unmeasured; vid2])
           (snd (clean_data (transformer_on [vid1; unmeasured; vid2])))
           0%nat 3%nat).
  - reflexivity.
  - reflexivity.
  - vm_compute. reflexivity.
  - vm_compute. reflexivity.
Defined.

(** C7.  On every record of the cleaned table, [calculate_metrics] computes
    [estimated_ads >= 1]: the product of density and minutes is clipped at 1
    before it is rounded. *)
Theorem estimated_ads_at_least_one (w w1 : World) (c : ref) :
  clean_data w = (inr c, w1) ->
  exists cl p w2,
    table w1 c = Some cl /\
    calculate_metrics w1 = (inr p, w2) /\
    table w2 p = Some (map add_metrics cl) /\
    forall row, In row cl ->
      metrics (add_metrics row) = Some (metrics_of (video row)) /\
      leb (of_Z 1) (estimated_ads (metrics_of (video row))) = true.
Proof.
  intros Hrun.
  destruct (clean_data_inv w w1 c Hrun) as (d & df & cl & Hd & Hdf & Hc & Hr & ->).
  exists cl. eexists. eexists.
  assert (Hcl : nth_error
                  (((heap w ++ [df])
                      ++ [map numeric_fillna (drop_duplicates df)]) ++ [cl]) c
                = Some cl).
  { rewrite Hr. apply nth_error_third. }
  split; [exact Hcl|].
  split; [apply (calculate_metrics_returns _ _ _ _ _ Hcl)|].
  split; [apply nth_error_alloc|].
  intros row Hin. split; [reflexivity|].
  destruct (cleaned_row_shape df cl row Hc Hin) as ((q & Hq & _) & _).
  now apply estimated_ads_ge_1 with q.
Qed.

Lemma estimated_ads_at_least_one_witness :
  exists cl p w2,
    table (snd (clean_data (transformer_on sample_data))) 3%nat = Some cl /\
    calculate_metrics (snd (clean_data (transformer_on sample_data)))
      = (inr p, w2) /\
    table w2 p = Some (map add_metrics cl) /\
    forall row, In row cl ->
      metrics (add_metrics row) = Some (metrics_of (video row)) /\
      leb (of_Z 1) (estimated_ads (metrics_of (video row))) = true.
Proof.
  apply (estimated_ads_at_least_one (transformer_on sample_data)).
  vm_compute. reflexivity.
Defined.

(** After a successful [clean_data], [calculate_metrics] and [add_features]
    both return; each allocates one table and neither writes to an older
    one. *)
Lemma stages_after_clean (now : Z) (w w1 : World) (c : ref) :
  clean_data w = (inr c, w1) ->
  exists cl p w2 q w3,
    table w1 c = Some cl /\
    (exists d df, data (self w) = Some d /\ table w d = Some df /\
                  cleaned df = inr cl) /\
    calculate_metrics w1 = (inr p, w2) /\
    table w2 p = Some (map add_metrics cl) /\
    add_features now w2 = (inr q, w3) /\
    table w3 q = Some (map (add_feature_columns now) (map add_metrics cl)) /\
    data (self w3) = Some c /\
    processed (self w3) = Some q /\
    (forall r x, table w1 r = Some x -> table w2 r = Some x) /\
    (forall r x, table w2 r = Some x -> table w3 r = Some x).
Proof.
  intros Hrun.
  destruct (clean_data_inv w w1 c Hrun) as (d & df & cl & Hd & Hdf & Hc & Hr & ->).
  set (h1 := ((heap w ++ [df])
                ++ [map numeric_fillna (drop_duplicates df)]) ++ [cl]).
  assert (Hcl : nth_error h1 c = Some cl).
  { rewrite Hr. apply nth_error_third. }
  destruct (metrics_then_features now h1 (filepath (self w)) c
              (processed (self w)) cl Hcl (cleaned_has_datetime df cl Hc))
    as (Hm & Hf).
  exists cl. do 4 eexists.
  split; [exact Hcl|].
  split; [exists d, df; auto|].
  split; [exact Hm|].
  split; [apply nth_error_alloc|].
  split; [exact Hf|].
  split; [apply nth_error_second|].
  split; [reflexivity|].
  split; [reflexivity|].
  split; intros r x H; now apply nth_error_old.
Qed.




(** C9.  [calculate_metrics] and [add_features] only add columns: the raw
    columns of the table each returns are those of the cleaned table, row by
    row, and neither writes to a table that existed before it ran; the
    cleaned table and the table of metrics are still what they were. *)
Theorem stages_only_add_columns (now : Z) (w w1 : World) (c : ref) :
  clean_data w = (inr c, w1) ->
  exists cl p w2 mid q w3 out,
    table w1 c = Some cl /\
    calculate_metrics w1 = (inr p, w2) /\ table w2 p = Some mid /\
    add_features now w2 = (inr q, w3) /\ table w3 q = Some out /\
    map video mid = map video cl /\
    map video out = map video cl /\
    table w2 c = Some cl /\
    table w3 c = Some cl /\
    table w3 p = Some mid /\
    (forall r x, table w1 r = Some x -> table w3 r = Some x).
Proof.
  intros Hrun.
  destruct (stages_after_clean now w w1 c Hrun)
    as (cl & p & w2 & q & w3 & Hcl & _ & Hm & Hmid & Hf & Hout & _ & _ & H12 & H23).
  exists cl, p, w2, (map add_metrics cl), q, w3,
    (map (add_feature_columns now) (map add_metrics cl)).
  repeat (split; [assumption|]).
  split; [apply video_add_metrics|].
  split; [now rewrite video_add_feature_columns, video_add_metrics|].
  split; [now apply H12|].
  split; [now apply H23, H12|].
  split; [now apply H23|].
  intros r x H. now apply H23, H12.
Qed.

Lemma stages_only_add_columns_witness :
  exists cl p w2 mid q w3 out,
    table (snd (clean_data (transformer_on sample_data))) 3%nat = Some cl /\
    calculate_metrics (snd (clean_data (transformer_on sample_data)))
      = (inr p, w2) /\
    table w2 p = Some mid /\
    add_features march1 w2 = (inr q, w3) /\ table w3 q = Some out /\
    map video mid = map video cl /\
    map video out = map video cl /\
    table w2 3%nat = Some cl /\
    table w3 3%nat = Some cl /\
    table w3 p = Some mid /\
    (forall r x,
        table (snd (clean_data (transformer_on sample_data))) r = Some x ->
        table w3 r = Some x).
Proof.
  apply (stages_only_add_columns march1 (transformer_on sample_data)).
  vm_compute. reflexivity.
Defined.

(** C5.  Two calls of [calculate_metrics] on the same cleaned table return
    equal tables: the first call leaves [self.data] and the table it refers
    to as they were, and the columns depend on nothing else. *)
Theorem calculate_metrics_twice (w : World) (d : ref) (df : DataFrame) :
  data (self w) = Some d ->
  table w d = Some df ->
  exists p1 w1 p2 w2 out,
    calculate_metrics w = (inr p1, w1) /\
    calculate_metrics w1 = (inr p2, w2) /\
    table w1 p1 = Some out /\
    table w2 p2 = Some out /\
    table w2 p1 = Some out.
Proof.
  destruct w as [h [f d' p]]. unfold table; cbn [heap self data].
  intros -> Hdf.
  exists (List.length h). eexists.
  exists (List.length (h ++ [map add_metrics df])). eexists.
  exists (map add_metrics df).
  split; [apply (calculate_metrics_returns h f d p df Hdf)|].
  split;
    [apply (calculate_metrics_returns
              (h ++ [map add_metrics df]) f d (Some (List.length h)) df
              (nth_error_old _ _ _ _ _ Hdf))|].
  cbn [heap].
  split; [apply nth_error_alloc|].
  split; [apply nth_error_alloc|].
  apply nth_error_old, nth_error_alloc.
Qed.

Lemma calculate_metrics_twice_witness :
  exists p1 w1 p2 w2 out,
    calculate_metrics (transformer_on sample_data) = (inr p1, w1) /\
    calculate_metrics w1 = (inr p2, w2) /\
    table w1 p1 = Some out /\
    table w2 p2 = Some out /\
    table w2 p1 = Some out.
Proof.
  apply (calculate_metrics_twice (transformer_on sample_data) 0%nat sample_data);
    reflexivity.
Defined.

(** C2, as the code has it.  When the timestamp of a record that survives
    de-duplication and the duration filter cannot be parsed, [clean_data]
    raises the parse error: [self.data] still refers to the raw table, which
    is as it was, and [process_pipeline] stops with the same error before
    any metric is computed. *)
Theorem unparsable_timestamp_aborts
        (now : Z) (w : World) (d : ref) (df : DataFrame) (row : Row)
        (s : string) :
  data (self w) = Some d ->
  table w d = Some df ->
  In row (filter positive_duration (drop_duplicates df)) ->
  published_at (video row) = BadString s ->
  exists s' w',
    clean_data w = (inl (DateParseError s'), w') /\
    process_pipeline now w = (inl (DateParseError s'), w') /\
    self w' = self w /\
    table w' d = Some df.
Proof.
  destruct w as [h [f d' p]]. unfold table; cbn [heap self data].
  intros -> Hdf Hin Hbad.
  destruct (cleaned_raises df row s Hin Hbad) as (s' & Hc).
  pose proof (clean_data_raises h f d p df _ Hdf Hc) as Hrun.
  exists s'. eexists.
  split; [exact Hrun|].
  split; [unfold process_pipeline; apply (bind_raise Hrun)|].
  split; [reflexivity|].
  cbn [heap]. now do 3 apply nth_error_old.
Qed.

Lemma unparsable_timestamp_aborts_witness :
  exists s' w',
    clean_data (transformer_on [vid1; garbled; vid2])
      = (inl (DateParseError s'), w') /\
    process_pipeline march1 (transformer_on [vid1; garbled; vid2])
      = (inl (DateParseError s'), w') /\
    self w' = self (transformer_on [vid1; garbled; vid2]) /\
    table w' 0%nat = Some [vid1; garbled; vid2].
Proof.
  apply (unparsable_timestamp_aborts
           march1 (transformer_on [vid1; garbled; vid2]) 0%nat
           [vid1; garbled; vid2] garbled "not a date").
  - reflexivity.
  - reflexivity.
  - vm_compute. auto.
  - reflexivity.
Defined.

(** C2 fails as stated: one record with an unparsable timestamp among good
    ones makes the whole run stop; nothing is cleaned and nothing is
    processed. *)
Lemma one_bad_timestamp_stops_the_run :
  let w := transformer_on [vid1; garbled; vid2] in
  fst (clean_data w) = inl (DateParseError "not a date") /\
  fst (process_pipeline march1 w) = inl (DateParseError "not a date") /\
  data (self (snd (process_pipeline march1 w))) = Some 0%nat /\
  processed (self (snd (process_pipeline march1 w))) = None.
Proof.
  vm_compute. repeat split.
Qed.

Lemma Qle_bool_Z (n b : Z) : Qle_bool (inject_Z n) (b # 1) = (n <=? b)%Z.
Proof. apply Qle_bool_inject_Z. Qed.

Lemma channel_tier_of_views (v : VideoRecord) (n : Z) :
  view_count v = Some (inject_Z n) -> (1 <= n)%Z ->
  channel_tier (metrics_of v) =
    if (n <=? 10000)%Z then "Micro"
    else if (n <=? 100000)%Z then "Small"
    else if (n <=? 1000000)%Z then "Medium"
    else if (n <=? 10000000)%Z then "Large"
    else "Enterprise".
Proof.
  intros Hv Hn. unfold metrics_of. cbn [channel_tier].
  rewrite Hv. cbn [of_cell].
  rewrite cut_tier
    by (change (inject_Z 0 < inject_Z n)%Q; rewrite <- Zlt_Qlt; lia).
  rewrite !Qle_bool_Z. cbn [astype_str].
  repeat match goal with |- context [(n <=? ?b)%Z] => destruct (n <=? b)%Z end;
    reflexivity.
Qed.

(** C1, as the code has it.  For a whole number of views of 1 or more,
    [calculate_metrics] assigns exactly one of the five tiers, by the
    intervals (0, 10k], (10k, 100k], (100k, 1M], (1M, 10M], (10M, inf): a
    count equal to 10,000, 100,000, 1,000,000 or 10,000,000 gets the lower
    tier. *)
Theorem channel_tier_right_closed (v : VideoRecord) (n : Z) :
  view_count v = Some (inject_Z n) ->
  (1 <= n)%Z ->
  let tier := channel_tier (metrics_of v) in
  In tier tier_labels /\
  ((n <= 10000)%Z -> tier = "Micro") /\
  ((10000 < n <= 100000)%Z -> tier = "Small") /\
  ((100000 < n <= 1000000)%Z -> tier = "Medium") /\
  ((1000000 < n <= 10000000)%Z -> tier = "Large") /\
  ((10000000 < n)%Z -> tier = "Enterprise").
Proof.
  intros Hv Hn tier. subst tier.
  rewrite (channel_tier_of_views v n Hv Hn).
  destruct (Z.leb_spec n 10000); [simpl; repeat split; auto; lia|].
  destruct (Z.leb_spec n 100000); [simpl; repeat split; auto; lia|].
  destruct (Z.leb_spec n 1000000); [simpl; repeat split; auto; lia|].
  destruct (Z.leb_spec n 10000000); simpl; repeat split; auto 6; lia.
Qed.

Lemma channel_tier_right_closed_witness :
  let tier := channel_tier (metrics_of (video ten_thousand_views)) in
  In tier tier_labels /\
  ((10000 <= 10000)%Z -> tier = "Micro") /\
  ((10000 < 10000 <= 100000)%Z -> tier = "Small") /\
  ((100000 < 10000 <= 1000000)%Z -> tier = "Medium") /\
  ((1000000 < 10000 <= 10000000)%Z -> tier = "Large") /\
  ((10000000 < 10000)%Z -> tier = "Enterprise").
Proof.
  apply (channel_tier_right_closed (video ten_thousand_views) 10000).
  - reflexivity.
  - lia.
Defined.

(** C1 fails as stated: 10,000 views are in the tier Micro, not Small. *)
Lemma ten_thousand_views_is_micro :
  view_count (video ten_thousand_views) = Some (inject_Z 10000) /\
  channel_tier (metrics_of (video ten_thousand_views)) = "Micro" /\
  channel_tier (metrics_of (video ten_thousand_views)) <> "Small".
Proof.
  split; [reflexivity|]. split; [vm_compute; reflexivity|].
  vm_compute. discriminate.
Qed.

(** Views of zero or less are in no interval: the tier is the text nan, and
    the multiplier falls back to 1.0. *)
Remark channel_tier_without_views (v : VideoRecord) (q : Q) :
  view_count v = Some q -> (q <= 0)%Q ->
  channel_tier (metrics_of v) = "nan" /\
  tier_multiplier (metrics_of v) = fin 1.0.
Proof.
  intros Hv Hq. unfold metrics_of. cbn [channel_tier tier_multiplier].
  rewrite Hv. cbn [of_cell]. rewrite (cut_tier_no_bin q Hq).
  split; reflexivity.
Qed.

(** C3, as the code has it.  The duration category follows the intervals
    (0, 5], (5, 15], (15, 30], (30, inf) on the minutes: a record of exactly
    5, 15 or 30 minutes is in the lower category. *)
Theorem duration_category_right_closed
        (now : Z) (v : VideoRecord) (m : Metrics) (q : Q) :
  duration_minutes m = Fin q ->
  (0 < q)%Q ->
  let category := duration_category (features_of now v m) in
  ((q <= 5)%Q -> category = Some "Short") /\
  ((5 < q)%Q /\ (q <= 15)%Q -> category = Some "Medium") /\
  ((15 < q)%Q /\ (q <= 30)%Q -> category = Some "Long") /\
  ((30 < q)%Q -> category = Some "Very Long").
Proof.
  intros Hm Hq category. subst category.
  unfold features_of. cbn [duration_category].
  rewrite Hm, (cut_duration q Hq).
  destruct (Qle_bool q 5) eqn:L1;
    destruct (Qle_bool q 15) eqn:L2;
    destruct (Qle_bool q 30) eqn:L3;
    repeat match goal with
           | H : Qle_bool _ _ = true |- _ => apply Qle_bool_iff in H
           | H : Qle_bool _ _ = false |- _ => apply Qle_bool_false in H
           end;
    repeat split; intros; try reflexivity; exfalso; lra.
Qed.

Lemma duration_category_right_closed_witness :
  let category :=
    duration_category
      (features_of march1 (video vid3) (metrics_of (video vid3))) in
  ((5 <= 5)%Q -> category = Some "Short") /\
  ((5 < 5)%Q /\ (5 <= 15)%Q -> category = Some "Medium") /\
  ((15 < 5)%Q /\ (5 <= 30)%Q -> category = Some "Long") /\
  ((30 < 5)%Q -> category = Some "Very Long").
Proof.
  apply (duration_category_right_closed
           march1 (video vid3) (metrics_of (video vid3)) 5).
  - vm_compute. reflexivity.
  - reflexivity.
Defined.

(** C3 fails as stated: a video of exactly 5 minutes is Short, not Medium. *)
Lemma five_minutes_is_short :
  duration_seconds (video vid3) = Some (inject_Z 300) /\
  duration_minutes (metrics_of (video vid3)) = of_Z 5 /\
  duration_category (features_of march1 (video vid3) (metrics_of (video vid3)))
    = Some "Short" /\
  duration_category (features_of march1 (video vid3) (metrics_of (video vid3)))
    <> Some "Medium".
Proof.
  split; [reflexivity|]. split; [vm_compute; reflexivity|].
  split; [vm_compute; reflexivity|].
  vm_compute. discriminate.
Qed.

(** C4, as the code has it.  For 180 seconds, 1000 views and the category
    Music, [calculate_metrics] gives a base rate of 0.15 (the table has an
    entry for Music), the tier Micro, the multiplier 1.2, a density of 0.18,
    3 minutes, 1 estimated ad, 20 seconds of ads and a ratio of 11.11. *)
Theorem music_example (v : VideoRecord) :
  duration_seconds v = Some 180%Q ->
  view_count v = Some 1000%Q ->
  category_name v = "Music" ->
  let m := metrics_of v in
  base_ad_rate m = fin 0.15 /\
  channel_tier m = "Micro" /\
  tier_multiplier m = fin 1.2 /\
  ad_density m = fin 0.18 /\
  duration_minutes m = of_Z 3 /\
  estimated_ads m = of_Z 1 /\
  ad_time_seconds m = of_Z 20 /\
  ad_ratio m = fin 11.11.
Proof.
  destruct v as [id ti ch ct ci cn pa ds vc lc cc ca]; simpl.
  intros -> -> ->. vm_compute. repeat split.
Qed.

Lemma music_example_witness :
  let m := metrics_of (video vid1) in
  base_ad_rate m = fin 0.15 /\
  channel_tier m = "Micro" /\
  tier_multiplier m = fin 1.2 /\
  ad_density m = fin 0.18 /\
  duration_minutes m = of_Z 3 /\
  estimated_ads m = of_Z 1 /\
  ad_time_seconds m = of_Z 20 /\
  ad_ratio m = fin 11.11.
Proof.
  apply (music_example (video vid1)); reflexivity.
Defined.

(** C4 fails as stated: the base rate of the example is 0.15, not 0.25. *)
Lemma music_base_rate_is_not_a_quarter :
  duration_seconds (video vid1) = Some 180%Q /\
  view_count (video vid1) = Some 1000%Q /\
  category_name (video vid1) = "Music" /\
  base_ad_rate (metrics_of (video vid1)) = fin 0.15 /\
  base_ad_rate (metrics_of (video vid1)) <> fin 0.25.
Proof.
  do 4 (split; [vm_compute; reflexivity|]).
  vm_compute. discriminate.
Qed.

(** The run of [test_pipeline_execution]: the three videos of the fixture
    come out of the pipeline, each with its derived columns. *)
Example sample_pipeline_rows :
  exists q w3 out,
    process_pipeline march1 (transformer_on sample_data) = (inr (Some q), w3) /\
    table w3 q = Some out /\
    List.length out = 3%nat /\
    forallb has_metrics out = true /\
    map (fun r => video_id (video r)) out = ["vid1"; "vid2"; "vid3"].
Proof.
  exists 5%nat, (snd (process_pipeline march1 (transformer_on sample_data))).
  eexists.
  split; [vm_compute; reflexivity|].
  split; [vm_compute; reflexivity|].
  repeat split.
Qed.

End Properties.

(** ** More about cleaning *)

Module CleaningProps.

Import Float Pandas Store Transform Fixtures.
Import FloatFacts StoreFacts PandasFacts TransformFacts RowFacts PipelineFacts.
Import Properties.
Local Open Scope string_scope.
Local Open Scope list_scope.

Local Abbreviation id_of r := (video_id (video r)).
Local Abbreviation has_id k := (fun r : Row => String.eqb (video_id (video r)) k).

Lemma existsb_eqb_In (k : string) (seen : list string) :
  existsb (String.eqb k) seen = true <-> In k seen.
Proof.
  rewrite existsb_exists. split.
  - intros (x & Hin & Heq). apply String.eqb_eq in Heq. now subst.
  - intros H. exists k. split; [exact H | apply String.eqb_refl].
Qed.

Lemma drop_duplicates_from_ids (seen : list string) (df : DataFrame) :
  NoDup (map (fun r => id_of r) (drop_duplicates_from seen df)) /\
  forall r, In r (drop_duplicates_from seen df) -> ~ In (id_of r) seen.
Proof.
  revert seen; induction df as [|x df IH]; intros seen; simpl.
  - split; [constructor | tauto].
  - destruct (existsb (String.eqb (id_of x)) seen) eqn:E.
    + apply IH.
    + destruct (IH (id_of x :: seen)) as [Hnd Hout].
      assert (Hx : ~ In (id_of x) seen).
      { intros H. apply existsb_eqb_In in H. congruence. }
      split.
      * simpl. constructor; [|exact Hnd].
        intros H. apply in_map_iff in H. destruct H as (r & Hr & Hin).
        apply (Hout r Hin). left. now symmetry.
      * intros r [<- | Hin]; [exact Hx|].
        intros H. apply (Hout r Hin). now right.
Qed.

Lemma find_drop_duplicates_from (k : string) (seen : list string)
      (df : DataFrame) :
  find (has_id k) (drop_duplicates_from seen df) =
    if existsb (String.eqb k) seen then None else find (has_id k) df.
Proof.
  revert seen; induction df as [|x df IH]; intros seen; simpl.
  - now destruct (existsb _ seen).
  - destruct (existsb (String.eqb (id_of x)) seen) eqn:E.
    + rewrite IH. destruct (existsb (String.eqb k) seen) eqn:Ek; [reflexivity|].
      destruct (String.eqb_spec (id_of x) k) as [Heq | Hne]; [|reflexivity].
      rewrite Heq in E. congruence.
    + simpl. destruct (String.eqb_spec (id_of x) k) as [Heq | Hne].
      * rewrite <- Heq, E. reflexivity.
      * rewrite IH. simpl.
        destruct (String.eqb_spec k (id_of x)) as [Heq' | _];
          [now symmetry in Heq'|].
        reflexivity.
Qed.

Lemma find_drop_duplicates (k : string) (df : DataFrame) :
  find (has_id k) (drop_duplicates df) = find (has_id k) df.
Proof. apply (find_drop_duplicates_from k [] df). Qed.

Lemma filter_map_fillna (df : DataFrame) :
  filter positive_duration (map numeric_fillna df)
  = map numeric_fillna (filter positive_duration df).
Proof.
  induction df as [|r df IH]; simpl; [reflexivity|].
  rewrite positive_duration_fillna.
  destruct (positive_duration r); simpl; now rewrite IH.
Qed.

Lemma Forall2_map_left (A B C : Type) (R : B -> C -> Prop) (f : A -> B)
      (l : list A) (l' : list C) :
  Forall2 R (map f l) l' -> Forall2 (fun x y => R (f x) y) l l'.
Proof.
  revert l'; induction l as [|x l IH]; intros l' H; inversion H; subst;
    constructor; auto.
Qed.

Lemma setitem_Forall2 (C : Type) (upd : Row -> C -> Row) (g : Row -> time_cell)
      (P : time_cell -> C -> Prop) (df : DataFrame) (col : list C) :
  Forall2 P (map g df) col ->
  Forall2 (fun r row => exists c, P (g r) c /\ row = upd r c)
          df (setitem upd df col).
Proof.
  revert col; induction df as [|r df IH]; intros col H; inversion H; subst;
    simpl; constructor; eauto.
Qed.

(** How a cleaned row stands to the raw row it comes from. *)
Local Abbreviation cleans raw row :=
  (exists t, to_datetime_cell (published_at (video raw)) = inr t /\
             row = set_published_at (numeric_fillna raw) t).

Lemma cleaned_Forall2 (df out : DataFrame) :
  cleaned df = inr out ->
  Forall2 (fun raw row => cleans raw row)
          (filter positive_duration (drop_duplicates df)) out.
Proof.
  unfold cleaned. intros H.
  destruct (to_datetime _) as [e | col] eqn:Ec; [discriminate|].
  inversion H; subst out; clear H.
  apply to_datetime_Forall2 in Ec.
  rewrite filter_map_fillna in *.
  apply (Forall2_map_left _ _ _
           (fun r row =>
              exists c, to_datetime_cell (published_at (video r)) = inr c /\
                        row = set_published_at r c)
           numeric_fillna).
  apply (setitem_Forall2 _ set_published_at
           (fun r => published_at (video r))
           (fun c c' => to_datetime_cell c = inr c')).
  exact Ec.
Qed.

Lemma Forall2_map_eq (A B C : Type) (R : A -> B -> Prop) (f : A -> C)
      (g : B -> C) (l : list A) (l' : list B) :
  (forall x y, R x y -> f x = g y) ->
  Forall2 R l l' -> map f l = map g l'.
Proof.
  intros HR. induction 1 as [|x y l l' Hxy _ IH]; simpl; [reflexivity|].
  now rewrite (HR x y Hxy), IH.
Qed.

Lemma cleans_id (raw row : Row) : cleans raw row -> id_of raw = id_of row.
Proof. intros (t & _ & ->). reflexivity. Qed.

(** Filtering rows keeps their ids distinct. *)
Lemma unique_ids_filter (keep : Row -> bool) (df : DataFrame) :
  NoDup (map (fun r => id_of r) df) ->
  NoDup (map (fun r => id_of r) (filter keep df)).
Proof.
  intros Hids. induction df as [|r df IH]; simpl; [constructor|].
  inversion Hids as [|? ? Hr Hdf]; subst.
  destruct (keep r); simpl; [|auto].
  constructor; [|auto].
  intros Hin. apply Hr. apply in_map_iff in Hin.
  destruct Hin as (r' & Hid & Hin). apply filter_In in Hin.
  apply in_map_iff. exists r'. tauto.
Qed.

Lemma find_absent (k : string) (l : DataFrame) :
  ~ In k (map (fun r => id_of r) l) -> find (has_id k) l = None.
Proof.
  induction l as [|x l IH]; simpl; [reflexivity|]. intros H.
  destruct (String.eqb_spec (id_of x) k) as [Heq | _]; [tauto|].
  apply IH. tauto.
Qed.

Lemma find_filter_unique (k : string) (p : Row -> bool) (l : DataFrame) :
  NoDup (map (fun r => id_of r) l) ->
  find (has_id k) (filter p l) =
    match find (has_id k) l with
    | Some r => if p r then Some r else None
    | None => None
    end.
Proof.
  induction l as [|x l IH]; simpl; intros H; [reflexivity|].
  inversion H as [|? ? Hx Hl]; subst.
  destruct (String.eqb_spec (id_of x) k) as [Heq | Hne].
  - destruct (p x); simpl.
    + destruct (String.eqb_spec (id_of x) k); [reflexivity | contradiction].
    + apply find_absent. rewrite <- Heq. intros Hin. apply Hx.
      apply in_map_iff in Hin. destruct Hin as (y & Hy & Hin).
      apply filter_In in Hin. apply in_map_iff. exists y. tauto.
  - destruct (p x); simpl; [|auto].
    destruct (String.eqb_spec (id_of x) k); [contradiction | auto].
Qed.

Lemma find_Forall2 (R : Row -> Row -> Prop) (p : Row -> bool)
      (l l' : DataFrame) :
  (forall x y, R x y -> p x = p y) ->
  Forall2 R l l' ->
  match find p l with
  | Some x => exists y, find p l' = Some y /\ R x y
  | None => find p l' = None
  end.
Proof.
  intros HR. induction 1 as [|x y l l' Hxy _ IH]; simpl; [reflexivity|].
  rewrite <- (HR x y Hxy). destruct (p x); [eauto | exact IH].
Qed.

(** The table [clean_data] started from and the one it returned. *)
Lemma clean_data_cleaned (w w1 : World) (d c : ref) (df out : DataFrame) :
  data (self w) = Some d ->
  table w d = Some df ->
  clean_data w = (inr c, w1) ->
  table w1 c = Some out ->
  cleaned df = inr out.
Proof.
  intros Hd Hdf Hrun Hout.
  destruct (clean_data_table w w1 c out Hrun Hout) as (d' & df' & Hd' & Hdf' & Hc).
  rewrite Hd in Hd'; inversion Hd'; subst d'.
  rewrite Hdf in Hdf'; now inversion Hdf'; subst df'.
Qed.

(** X1.  The cleaned table is the raw table without the later duplicates and
    without the rows whose duration is missing or not positive, in the order
    of the raw table; a row kept has its missing counters set to 0 and its
    timestamp parsed, and is otherwise as it was. *)
Theorem clean_data_rows_in_order
        (w w1 : World) (d c : ref) (df out : DataFrame) :
  data (self w) = Some d ->
  table w d = Some df ->
  clean_data w = (inr c, w1) ->
  table w1 c = Some out ->
  Forall2 (fun raw row =>
             exists t,
               to_datetime_cell (published_at (video raw)) = inr t /\
               row = set_published_at (numeric_fillna raw) t)
          (filter positive_duration (drop_duplicates df)) out.
Proof.
  intros Hd Hdf Hrun Hout.
  apply cleaned_Forall2. now apply (clean_data_cleaned w w1 d c).
Qed.

Lemma clean_data_rows_in_order_witness :
  Forall2 (fun raw row =>
             exists t,
               to_datetime_cell (published_at (video raw)) = inr t /\
               row = set_published_at (numeric_fillna raw) t)
          (filter positive_duration
                  (drop_duplicates [vid1; unmeasured; vid1; vid2]))
          [set_published_at (numeric_fillna vid1) (Timestamp jan1);
           set_published_at (numeric_fillna vid2) (Timestamp jan2)].
Proof.
  apply (clean_data_rows_in_order
           (transformer_on [vid1; unmeasured; vid1; vid2])
           (snd (clean_data (transformer_on [vid1; unmeasured; vid1; vid2])))
           0%nat 3%nat).
  - reflexivity.
  - reflexivity.
  - vm_compute. reflexivity.
  - vm_compute. reflexivity.
Defined.

(** X2.  No two rows of the cleaned table have the same video id. *)
Theorem cleaned_ids_unique
        (w w1 : World) (c : ref) (out : DataFrame) :
  clean_data w = (inr c, w1) ->
  table w1 c = Some out ->
  NoDup (map (fun r => video_id (video r)) out).
Proof.
  intros Hrun Hout.
  destruct (clean_data_table w w1 c out Hrun Hout) as (d & df & _ & _ & Hc).
  rewrite <- (Forall2_map_eq _ _ _ _ (fun r => id_of r) (fun r => id_of r)
                _ _ cleans_id (cleaned_Forall2 df out Hc)).
  apply unique_ids_filter.
  apply (drop_duplicates_from_ids [] df).
Qed.

Lemma cleaned_ids_unique_witness :
  NoDup (map (fun r => video_id (video r))
             [set_published_at (numeric_fillna vid1) (Timestamp jan1);
              set_published_at (numeric_fillna vid2) (Timestamp jan2)]).
Proof.
  apply (cleaned_ids_unique
           (transformer_on [vid1; unmeasured; vid1; vid2])
           (snd (clean_data (transformer_on [vid1; unmeasured; vid1; vid2])))
           3%nat).
  - vm_compute. reflexivity.
  - vm_compute. reflexivity.
Defined.

(** X3.  Duplicates go before durations are looked at: for every video id, the
    first raw row with that id decides.  If its duration is present and
    positive, its cleaned image is the row of that id in the cleaned table;
    if not, the id is absent from the cleaned table, whatever later rows
    with the same id hold. *)
Theorem first_occurrence_decides
        (w w1 : World) (d c : ref) (df out : DataFrame) (k : string) :
  data (self w) = Some d ->
  table w d = Some df ->
  clean_data w = (inr c, w1) ->
  table w1 c = Some out ->
  match find (fun r => String.eqb (video_id (video r)) k) df with
  | Some raw =>
      if positive_duration raw
      then exists row t,
          find (fun r => String.eqb (video_id (video r)) k) out = Some row /\
          to_datetime_cell (published_at (video raw)) = inr t /\
          row = set_published_at (numeric_fillna raw) t
      else find (fun r => String.eqb (video_id (video r)) k) out = None
  | None => find (fun r => String.eqb (video_id (video r)) k) out = None
  end.
Proof.
  intros Hd Hdf Hrun Hout.
  pose proof (clean_data_cleaned w w1 d c df out Hd Hdf Hrun Hout) as Hc.
  pose proof (find_Forall2 (fun raw row => cleans raw row) (has_id k) _ _
                (fun x y H => f_equal (fun s => String.eqb s k) (cleans_id x y H))
                (cleaned_Forall2 df out Hc)) as H.
  rewrite (find_filter_unique k positive_duration (drop_duplicates df))
    in H by apply (drop_duplicates_from_ids [] df).
  rewrite find_drop_duplicates in H.
  destruct (find (has_id k) df) as [raw|]; [|exact H].
  destruct (positive_duration raw); [|exact H].
  destruct H as (row & Hrow & t & Ht & ->). eauto.
Qed.

Local Abbreviation late_copy :=
  [vid1; unmeasured;
   raw_row "vid8" "Gaming" (DateString jan2) (num_cell 60)
           (num_cell 1) (num_cell 1) (num_cell 1)].

Lemma first_occurrence_decides_witness :
  find (fun r => String.eqb (video_id (video r)) "vid8")
       [set_published_at (numeric_fillna vid1) (Timestamp jan1)] = None.
Proof.
  apply (first_occurrence_decides
           (transformer_on late_copy)
           (snd (clean_data (transformer_on late_copy)))
           0%nat 3%nat late_copy
           [set_published_at (numeric_fillna vid1) (Timestamp jan1)]
           "vid8").
  - reflexivity.
  - reflexivity.
  - vm_compute. reflexivity.
  - vm_compute. reflexivity.
Defined.

Lemma to_datetime_total (col : list time_cell) :
  (forall c s, In c col -> c <> BadString s) ->
  exists out, to_datetime col = inr out.
Proof.
  induction col as [|c col IH]; simpl; intros H; [eauto|].
  destruct IH as (out & ->); [intros c' s Hin; apply H; now right|].
  destruct c as [| t | s | t]; simpl; eauto.
  exfalso. now apply (H (BadString s) s); [left|].
Qed.

Lemma cleaned_returns (df : DataFrame) :
  (forall row s, In row (filter positive_duration (drop_duplicates df)) ->
                 published_at (video row) <> BadString s) ->
  exists out, cleaned df = inr out.
Proof.
  intros H. unfold cleaned.
  destruct (to_datetime_total
              (map (fun r => published_at (video r))
                   (filter positive_duration
                      (map numeric_fillna (drop_duplicates df)))))
    as (col & ->); [|eauto].
  intros c s Hin. rewrite filter_map_fillna, map_map in Hin.
  apply in_map_iff in Hin. destruct Hin as (row & <- & Hin).
  exact (H row s Hin).
Qed.

(** X4.  [clean_data] returns exactly when every row that survives
    de-duplication and the duration filter has a timestamp that is missing
    or can be parsed; text that cannot be parsed is harmless in a row that
    is dropped. *)
Theorem clean_data_returns_exactly
        (w : World) (d : ref) (df : DataFrame) :
  data (self w) = Some d ->
  table w d = Some df ->
  (exists c w1, clean_data w = (inr c, w1)) <->
  (forall row s, In row (filter positive_duration (drop_duplicates df)) ->
                 published_at (video row) <> BadString s).
Proof.
  destruct w as [h [f d' p]]. unfold table; cbn [heap self data].
  intros -> Hdf. split.
  - intros (c & w1 & Hrun) row s Hin Hbad.
    destruct (cleaned_raises df row s Hin Hbad) as (s' & Hc).
    rewrite (clean_data_raises h f d p df _ Hdf Hc) in Hrun. discriminate.
  - intros H. destruct (cleaned_returns df H) as (out & Hc).
    rewrite (clean_data_returns h f d p df out Hdf Hc). eauto.
Qed.

Lemma clean_data_returns_exactly_witness :
  (exists c w1,
      clean_data (transformer_on [vid1; garbled; vid1; vid2]) = (inr c, w1)) <->
  (forall row s,
      In row (filter positive_duration
                     (drop_duplicates [vid1; garbled; vid1; vid2])) ->
      published_at (video row) <> BadString s).
Proof.
  apply (clean_data_returns_exactly
           (transformer_on [vid1; garbled; vid1; vid2]) 0%nat);
    reflexivity.
Defined.

(** Cleaning a cleaned table changes nothing. *)

Lemma drop_duplicates_from_unique (seen : list string) (df : DataFrame) :
  NoDup (map (fun r => id_of r) df) ->
  (forall r, In r df -> ~ In (id_of r) seen) ->
  drop_duplicates_from seen df = df.
Proof.
  revert seen; induction df as [|x df IH]; intros seen Hnd Hseen; simpl;
    [reflexivity|].
  inversion Hnd as [|? ? Hx Hl]; subst.
  destruct (existsb (String.eqb (id_of x)) seen) eqn:E.
  - apply existsb_eqb_In in E. exfalso. apply (Hseen x); [now left | exact E].
  - f_equal. apply IH; [exact Hl|].
    intros r Hin [Heq | Hin'].
    + apply Hx. rewrite Heq. now apply (in_map (fun r => id_of r)).
    + apply (Hseen r); [now right | exact Hin'].
Qed.

Lemma map_fixed (A : Type) (f : A -> A) (l : list A) :
  (forall x, In x l -> f x = x) -> map f l = l.
Proof.
  induction l as [|x l IH]; simpl; intros H; [reflexivity|].
  rewrite (H x) by now left. f_equal. apply IH. intros y Hy. apply H. now right.
Qed.

Lemma filter_all (A : Type) (p : A -> bool) (l : list A) :
  (forall x, In x l -> p x = true) -> filter p l = l.
Proof.
  induction l as [|x l IH]; simpl; intros H; [reflexivity|].
  rewrite (H x) by now left. f_equal. apply IH. intros y Hy. apply H. now right.
Qed.

Lemma to_datetime_fixed (col : list time_cell) :
  (forall c, In c col -> is_datetime c = true) -> to_datetime col = inr col.
Proof.
  induction col as [|c col IH]; simpl; intros H; [reflexivity|].
  rewrite IH by (intros c' Hc'; apply H; now right).
  assert (Hc : is_datetime c = true) by (apply H; now left).
  destruct c; simpl in *; try discriminate; reflexivity.
Qed.

Lemma setitem_own_column (df : DataFrame) :
  setitem set_published_at df (map (fun r => published_at (video r)) df) = df.
Proof.
  induction df as [|r df IH]; simpl; [reflexivity|].
  rewrite IH. f_equal. now destruct r as [[] ? ?].
Qed.

Lemma numeric_fillna_cleaned (raw : Row) (t : time_cell) :
  numeric_fillna (set_published_at (numeric_fillna raw) t)
  = set_published_at (numeric_fillna raw) t.
Proof.
  destruct raw as [[id ti ch ct ci cn pa ds vc lc cc ca] m ft].
  now destruct vc, lc, cc.
Qed.

Lemma cleaned_fixed (df out : DataFrame) :
  cleaned df = inr out -> cleaned out = inr out.
Proof.
  intros Hc. unfold cleaned.
  assert (Hdd : drop_duplicates out = out).
  { apply drop_duplicates_from_unique; [|intros r _ []].
    rewrite <- (Forall2_map_eq _ _ _ _ (fun r => id_of r) (fun r => id_of r)
                  _ _ cleans_id (cleaned_Forall2 df out Hc)).
    apply unique_ids_filter, (drop_duplicates_from_ids [] df). }
  assert (Hfill : map numeric_fillna out = out).
  { apply map_fixed. intros row Hin.
    destruct (cleaned_rows df out row Hc Hin) as (raw & t & _ & _ & _ & ->).
    apply numeric_fillna_cleaned. }
  assert (Hpos : filter positive_duration out = out).
  { apply filter_all. intros row Hin.
    destruct (cleaned_rows df out row Hc Hin) as (raw & t & _ & Hp & _ & ->).
    exact Hp. }
  rewrite Hdd, Hfill, Hpos.
  rewrite to_datetime_fixed.
  - now rewrite setitem_own_column.
  - intros c Hin. apply in_map_iff in Hin. destruct Hin as (row & <- & Hin).
    now destruct (cleaned_row_shape df out row Hc Hin) as (_ & _ & _ & _ & H).
Qed.

(** X5.  A second [clean_data] returns a table equal to the first one, and leaves
    the first one as it was. *)
Theorem clean_data_twice (w w1 : World) (c : ref) (out : DataFrame) :
  clean_data w = (inr c, w1) ->
  table w1 c = Some out ->
  exists c2 w2,
    clean_data w1 = (inr c2, w2) /\
    table w2 c2 = Some out /\
    table w2 c = Some out.
Proof.
  intros Hrun Hout.
  destruct (clean_data_table w w1 c out Hrun Hout) as (d & df & _ & _ & Hc).
  destruct (clean_data_inv w w1 c Hrun)
    as (d' & df' & out' & _ & _ & _ & _ & Hw).
  subst w1. unfold table in *; cbn [heap] in *.
  do 2 eexists.
  split; [apply (clean_data_returns _ _ _ _ out out Hout (cleaned_fixed df out Hc))|].
  unfold table; cbn [heap].
  split; [apply nth_error_third|].
  now do 3 apply nth_error_old.
Qed.

Lemma clean_data_twice_witness :
  exists c2 w2,
    clean_data (snd (clean_data (transformer_on sample_data))) = (inr c2, w2) /\
    table w2 c2
      = Some [set_published_at vid1 (Timestamp jan1);
              set_published_at vid2 (Timestamp jan2);
              set_published_at vid3 (Timestamp jan3)] /\
    table w2 3%nat
      = Some [set_published_at vid1 (Timestamp jan1);
              set_published_at vid2 (Timestamp jan2);
              set_published_at vid3 (Timestamp jan3)].
Proof.
  apply (clean_data_twice (transformer_on sample_data)).
  - vm_compute. reflexivity.
  - vm_compute. reflexivity.
Defined.

End CleaningProps.

(** ** More about the metrics *)

Module MetricProps.

Import Float Pandas Store Transform Fixtures.
Import FloatFacts StoreFacts PandasFacts TransformFacts RowFacts PipelineFacts.
Local Open Scope string_scope.
Local Open Scope list_scope.

(** *** Bounds through rounding *)

Lemma leb_Fin (a b : Q) : leb (Fin a) (Fin b) = true <-> (a <= b)%Q.
Proof.
  simpl. rewrite Bool.negb_true_iff. apply Qltb_false.
Qed.

Lemma ltb_Fin (a b : Q) : ltb (Fin a) (Fin b) = true <-> (a < b)%Q.
Proof. apply Qltb_true. Qed.

Lemma leb_fin (a b : Q) : leb (Fin a) (fin b) = true <-> (a <= b)%Q.
Proof. unfold fin. rewrite leb_Fin. now rewrite Qred_correct. Qed.

Lemma power_of_ten_pos (d : nat) : (0 < inject_Z (10 ^ Z.of_nat d))%Q.
Proof.
  change 0%Q with (inject_Z 0). rewrite <- Zlt_Qlt.
  apply Z.pow_pos_nonneg; lia.
Qed.

Lemma rint_upper (q : Q) (z : Z) : (q <= inject_Z z)%Q -> (rint q <= z)%Z.
Proof.
  intros H.
  assert (Hf : (Qfloor q <= z)%Z).
  { rewrite <- (Qfloor_Z z). now apply Qfloor_resp_le. }
  unfold rint.
  destruct (q - inject_Z (Qfloor q) ?= 1 # 2)%Q eqn:E; [destruct (Z.even _)| |];
    try exact Hf.
  - apply Qeq_alt in E.
    assert (Hlt : (inject_Z (Qfloor q) < inject_Z z)%Q) by lra.
    rewrite <- Zlt_Qlt in Hlt. lia.
  - apply Qgt_alt in E.
    assert (Hlt : (inject_Z (Qfloor q) < inject_Z z)%Q) by lra.
    rewrite <- Zlt_Qlt in Hlt. lia.
Qed.

(** A whole number below a value stays below its rounding, to any number of
    decimals; so does one above. *)
Lemma round_lower (d : nat) (z : Z) (x : num) :
  leb (of_Z z) x = true -> leb (of_Z z) (round d x) = true.
Proof.
  destruct x as [| |q|]; try (simpl; auto; fail).
  unfold of_Z. rewrite leb_Fin. intros H. unfold round. rewrite leb_fin.
  pose proof (power_of_ten_pos d) as Hs.
  set (s := (10 ^ Z.of_nat d)%Z) in *.
  apply Qle_shift_div_l; [exact Hs|].
  rewrite <- inject_Z_mult, <- Zle_Qle.
  apply rint_lower. rewrite inject_Z_mult.
  apply Qmult_le_compat_r; [exact H | now apply Qlt_le_weak].
Qed.

Lemma round_upper (d : nat) (z : Z) (x : num) :
  leb x (of_Z z) = true -> leb (round d x) (of_Z z) = true.
Proof.
  destruct x as [| |q|]; try (simpl; auto; fail).
  unfold of_Z. rewrite leb_Fin. intros H. unfold round, fin.
  rewrite leb_Fin, Qred_correct.
  pose proof (power_of_ten_pos d) as Hs.
  set (s := (10 ^ Z.of_nat d)%Z) in *.
  apply Qle_shift_div_r; [exact Hs|].
  rewrite <- inject_Z_mult, <- Zle_Qle.
  apply rint_upper. rewrite inject_Z_mult.
  apply Qmult_le_compat_r; [exact H | now apply Qlt_le_weak].
Qed.

Lemma finite_inv (x : num) : is_finite x = true -> exists q, x = Fin q.
Proof. destruct x; simpl; try discriminate; eauto. Qed.

Lemma div_Fin (a b : Q) : ~ (b == 0)%Q -> div (Fin a) (Fin b) = fin (a / b).
Proof.
  intros Hb. simpl. apply Qeqb0_false in Hb. now rewrite Hb.
Qed.

(** *** The columns, one by one *)

Lemma base_ad_rate_eq (v : VideoRecord) :
  base_ad_rate (metrics_of v)
  = fillna (fin 0.25) (map_dict category_rates (category_name v)).
Proof. reflexivity. Qed.

Lemma tier_multiplier_eq (v : VideoRecord) :
  tier_multiplier (metrics_of v)
  = fillna (fin 1.0) (map_dict tier_multipliers (channel_tier (metrics_of v))).
Proof. reflexivity. Qed.

Lemma ad_density_eq (v : VideoRecord) :
  ad_density (metrics_of v)
  = mul (base_ad_rate (metrics_of v)) (tier_multiplier (metrics_of v)).
Proof. reflexivity. Qed.

Lemma estimated_ads_eq (v : VideoRecord) :
  estimated_ads (metrics_of v)
  = round 0 (clip_lower (of_Z 1)
                        (mul (ad_density (metrics_of v))
                             (duration_minutes (metrics_of v)))).
Proof. reflexivity. Qed.

Lemma ad_time_seconds_eq (v : VideoRecord) :
  ad_time_seconds (metrics_of v) = mul (estimated_ads (metrics_of v)) (of_Z 20).
Proof. reflexivity. Qed.

Lemma ad_ratio_eq (v : VideoRecord) :
  ad_ratio (metrics_of v)
  = round 2 (mul (div (ad_time_seconds (metrics_of v))
                      (of_cell (duration_seconds v)))
                 (of_Z 100)).
Proof. reflexivity. Qed.

Lemma estimated_ads_integer (v : VideoRecord) (q : Q) :
  duration_seconds v = Some q ->
  exists n : Z,
    (1 <= n)%Z /\
    estimated_ads (metrics_of v) = of_Z n /\
    ad_time_seconds (metrics_of v) = of_Z (n * 20).
Proof.
  intros H.
  assert (Hx : is_finite (mul (ad_density (metrics_of v))
                              (duration_minutes (metrics_of v))) = true).
  { apply mul_finite; [apply ad_density_finite|].
    now apply duration_minutes_finite with q. }
  destruct (finite_inv _ Hx) as (x & Ex).
  rewrite ad_time_seconds_eq, estimated_ads_eq, Ex.
  unfold clip_lower. cbn [ltb of_Z].
  destruct (Qltb x (inject_Z 1)) eqn:E.
  - exists 1%Z. split; [lia|]. split; vm_compute; reflexivity.
  - apply Qltb_false in E. rewrite round_0.
    exists (rint x). split; [now apply rint_lower|]. split; [reflexivity|].
    unfold of_Z at 1 2. cbn [mul]. apply fin_integer.
    now rewrite inject_Z_mult.
Qed.

(** X6.  The estimated number of ads is a whole number, 1 or more, and the time
    of ads is 20 seconds for each, whenever the duration is present. *)
Theorem estimated_ads_whole (v : VideoRecord) (q : Q) :
  duration_seconds v = Some q ->
  exists n : Z,
    (1 <= n)%Z /\
    estimated_ads (metrics_of v) = of_Z n /\
    ad_time_seconds (metrics_of v) = of_Z (n * 20).
Proof. apply estimated_ads_integer. Qed.

Lemma estimated_ads_whole_witness :
  exists n : Z,
    (1 <= n)%Z /\
    estimated_ads (metrics_of (video vid2)) = of_Z n /\
    ad_time_seconds (metrics_of (video vid2)) = of_Z (n * 20).
Proof.
  apply (estimated_ads_whole (video vid2) (inject_Z 600)). reflexivity.
Defined.

(** The ratio the division yields when the duration is a number. *)
Lemma ad_ratio_value (v : VideoRecord) (q : Q) (n : Z) :
  duration_seconds v = Some q -> (0 < q)%Q ->
  estimated_ads (metrics_of v) = of_Z n ->
  exists x, (x == inject_Z (n * 20) / q * 100)%Q /\
            ad_ratio (metrics_of v) = round 2 (Fin x).
Proof.
  intros H Hq Hn.
  rewrite ad_ratio_eq, ad_time_seconds_eq, Hn, H.
  unfold of_Z at 1 2. cbn [mul of_cell].
  unfold fin at 1. rewrite div_Fin by lra.
  unfold fin at 1, of_Z. cbn [mul].
  eexists. split; [|reflexivity].
  rewrite !Qred_correct, inject_Z_mult. reflexivity.
Qed.

(** X7.  The ratio of ads is never negative on a cleaned record. *)
Theorem ad_ratio_not_negative (v : VideoRecord) (q : Q) :
  duration_seconds v = Some q -> (0 < q)%Q ->
  leb (of_Z 0) (ad_ratio (metrics_of v)) = true.
Proof.
  intros H Hq.
  destruct (estimated_ads_integer v q H) as (n & Hn & He & _).
  destruct (ad_ratio_value v q n H Hq He) as (x & Ex & ->).
  apply round_lower. unfold of_Z. apply leb_Fin. rewrite Ex.
  assert (H20 : (0 <= inject_Z (n * 20))%Q).
  { change 0%Q with (inject_Z 0). rewrite <- Zle_Qle. lia. }
  apply Qmult_le_0_compat; [|lra].
  apply Qle_shift_div_l; [exact Hq | lra].
Qed.

Lemma ad_ratio_not_negative_witness :
  leb (of_Z 0) (ad_ratio (metrics_of (video vid2))) = true.
Proof.
  apply (ad_ratio_not_negative (video vid2) (inject_Z 600));
    reflexivity.
Defined.

(** X8.  The ratio is not capped at 100: a video of 19 seconds or less has a
    ratio above 100 percent. *)
Theorem ad_ratio_exceeds_hundred (v : VideoRecord) (q : Q) :
  duration_seconds v = Some q -> (0 < q)%Q -> (q <= 19)%Q ->
  ltb (of_Z 100) (ad_ratio (metrics_of v)) = true.
Proof.
  intros H Hq H19.
  destruct (estimated_ads_integer v q H) as (n & Hn & He & _).
  destruct (ad_ratio_value v q n H Hq He) as (x & Ex & Hr).
  assert (Hlow : leb (of_Z 101) (ad_ratio (metrics_of v)) = true).
  { rewrite Hr. apply round_lower. unfold of_Z. apply leb_Fin. rewrite Ex.
    assert (H20 : (20 <= inject_Z (n * 20))%Q).
    { change 20%Q with (inject_Z 20). rewrite <- Zle_Qle. lia. }
    assert (Hd : (1 <= inject_Z (n * 20) / q)%Q).
    { apply Qle_shift_div_l; [exact Hq | lra]. }
    assert (Hd' : (20 <= inject_Z (n * 20) / q * 19)%Q).
    { apply Qle_trans with (inject_Z (n * 20) / q * q)%Q.
      - rewrite Qmult_comm, Qmult_div_r by lra. exact H20.
      - rewrite !(Qmult_comm (inject_Z (n * 20) / q)).
        apply Qmult_le_compat_r; [exact H19 | lra]. }
    generalize dependent (inject_Z (n * 20) / q)%Q.
    intros X _ _ HX. unfold inject_Z. lra. }
  destruct (ad_ratio (metrics_of v)) as [| |r|]; simpl in *;
    try discriminate; try reflexivity.
  apply Bool.negb_true_iff, Qltb_false in Hlow. apply Qltb_true.
  unfold inject_Z in *. lra.
Qed.

Lemma ad_ratio_exceeds_hundred_witness :
  ltb (of_Z 100)
      (ad_ratio
         (metrics_of
            (video (raw_row "short" "Music" (DateString jan1) (num_cell 15)
                            (num_cell 10) (num_cell 1) (num_cell 0)))))
  = true.
Proof.
  apply (ad_ratio_exceeds_hundred _ (inject_Z 15)).
  - reflexivity.
  - reflexivity.
  - unfold Qle; simpl; lia.
Defined.

(** X9.  A duration of zero, which only an uncleaned table can hold, makes the
    ratio infinite: the division is not guarded, the filter of [clean_data]
    is what keeps it finite. *)
Theorem zero_duration_gives_infinite_ratio (v : VideoRecord) (q : Q) :
  duration_seconds v = Some q -> (q == 0)%Q ->
  ad_ratio (metrics_of v) = PInf.
Proof.
  intros H Hq.
  destruct (estimated_ads_integer v q H) as (n & Hn & _ & Ht).
  rewrite ad_ratio_eq, Ht, H. unfold of_Z at 1. cbn [of_cell div].
  apply Qeqb0_true in Hq. rewrite Hq.
  assert (Hpos : (inject_Z (n * 20) ?= 0)%Q = Gt).
  { apply Qgt_alt. change 0%Q with (inject_Z 0). rewrite <- Zlt_Qlt. lia. }
  rewrite Hpos. reflexivity.
Qed.

Lemma zero_duration_gives_infinite_ratio_witness :
  ad_ratio
    (metrics_of
       (video (raw_row "live" "Music" (DateString jan1) (num_cell 0)
                       (num_cell 10) (num_cell 1) (num_cell 0))))
  = PInf.
Proof.
  apply (zero_duration_gives_infinite_ratio _ (inject_Z 0)).
  - reflexivity.
  - reflexivity.
Defined.

(** Without a duration the estimate and the ratio are NaN. *)
Remark missing_duration_gives_nan (v : VideoRecord) :
  duration_seconds v = None ->
  estimated_ads (metrics_of v) = NaN /\ ad_ratio (metrics_of v) = NaN.
Proof.
  intros H.
  assert (He : estimated_ads (metrics_of v) = NaN).
  { rewrite estimated_ads_eq.
    destruct (finite_inv _ (ad_density_finite v)) as (a & ->).
    unfold metrics_of; cbn [duration_minutes]. now rewrite H. }
  split; [exact He|].
  now rewrite ad_ratio_eq, ad_time_seconds_eq, He.
Qed.

Lemma engagement_rate_eq (v : VideoRecord) :
  engagement_rate (metrics_of v)
  = round 3 (mul (div (add (of_cell (like_count v))
                           (of_cell (comment_count v)))
                      (replace_0_1 (of_cell (view_count v))))
                 (of_Z 100)).
Proof. reflexivity. Qed.

(** X10.  With counters that are not negative, the engagement rate is not
    negative either, also when there are no views. *)
Theorem engagement_rate_not_negative (v : VideoRecord) (a b c : Q) :
  view_count v = Some a -> like_count v = Some b -> comment_count v = Some c ->
  (0 <= a)%Q -> (0 <= b)%Q -> (0 <= c)%Q ->
  leb (of_Z 0) (engagement_rate (metrics_of v)) = true.
Proof.
  intros Hv Hl Hc Ha Hb Hc0.
  rewrite engagement_rate_eq, Hv, Hl, Hc. cbn [of_cell add].
  assert (Hd : exists d, replace_0_1 (Fin a) = Fin d /\ (0 < d)%Q).
  { unfold replace_0_1. destruct (Qeqb0 a) eqn:E.
    - exists 1%Q. split; [reflexivity | lra].
    - exists a. split; [reflexivity|]. apply Qeqb0_false in E.
      destruct (Qle_lt_or_eq 0 a Ha) as [H | H]; [exact H|].
      exfalso. apply E. now symmetry. }
  destruct Hd as (d & -> & Hd).
  unfold fin at 1. rewrite div_Fin by lra.
  unfold fin at 1, of_Z at 1. cbn [mul].
  apply round_lower. unfold of_Z. apply leb_fin.
  rewrite !Qred_correct. change (inject_Z 0) with 0%Q.
  apply Qmult_le_0_compat; [|unfold inject_Z; lra].
  apply Qle_shift_div_l; [exact Hd | lra].
Qed.

Lemma engagement_rate_not_negative_witness :
  leb (of_Z 0) (engagement_rate (metrics_of (video unseen))) = true.
Proof.
  apply (engagement_rate_not_negative (video unseen) 0 0 0);
    try reflexivity; unfold Qle; simpl; lia.
Defined.

(** *** The two lookup tables *)

Lemma base_ad_rate_values (v : VideoRecord) :
  In (base_ad_rate (metrics_of v))
     [fin 0.15; fin 0.25; fin 0.22; fin 0.30; fin 0.35; fin 0.32].
Proof.
  rewrite base_ad_rate_eq. unfold category_rates, map_dict.
  repeat match goal with
         | |- context [String.eqb (category_name v) ?s] =>
             destruct (String.eqb (category_name v) s)
         end;
    cbn [In]; auto 10.
Qed.

Lemma cut_cases (bins : list num) (labels : list string) (x : num) :
  cut bins labels x = None \/
  exists l, In l labels /\ cut bins labels x = Some l.
Proof.
  unfold cut. destruct (_ || _ || _); [now left|].
  destruct (nth_error labels _) as [l|] eqn:E; [|now left].
  right. exists l. split; [now apply nth_error_In in E | reflexivity].
Qed.

Lemma tier_multiplier_values (v : VideoRecord) :
  In (tier_multiplier (metrics_of v))
     [fin 1.2; fin 1.1; fin 1.0; fin 0.9; fin 0.8].
Proof.
  rewrite tier_multiplier_eq.
  change (channel_tier (metrics_of v))
    with (astype_str (cut tier_bins tier_labels (of_cell (view_count v)))).
  destruct (cut_cases tier_bins tier_labels (of_cell (view_count v)))
    as [-> | (l & Hl & ->)].
  - cbn [In]. auto 10.
  - cbn [In tier_labels] in Hl.
    destruct Hl as [<- | [<- | [<- | [<- | [<- | []]]]]]; cbn [In]; auto 10.
Qed.

(** X11.  Whatever the category and the views, the density of ads is between
    0.12 and 0.42 ads a minute. *)
Theorem ad_density_bounds (v : VideoRecord) :
  leb (fin 0.12) (ad_density (metrics_of v)) = true /\
  leb (ad_density (metrics_of v)) (fin 0.42) = true.
Proof.
  rewrite ad_density_eq.
  pose proof (base_ad_rate_values v) as Hb.
  pose proof (tier_multiplier_values v) as Ht.
  cbn [In] in Hb, Ht.
  destruct Hb as [<- | [<- | [<- | [<- | [<- | [<- | []]]]]]];
    destruct Ht as [<- | [<- | [<- | [<- | [<- | []]]]]];
    split; vm_compute; reflexivity.
Qed.

Lemma tier_multiplier_of_views (v : VideoRecord) (q : Q) :
  view_count v = Some q -> (0 < q)%Q ->
  tier_multiplier (metrics_of v) =
    if Qle_bool q 10000 then fin 1.2
    else if Qle_bool q 100000 then fin 1.1
    else if Qle_bool q 1000000 then fin 1.0
    else if Qle_bool q 10000000 then fin 0.9
    else fin 0.8.
Proof.
  intros Hv Hq. rewrite tier_multiplier_eq.
  change (channel_tier (metrics_of v))
    with (astype_str (cut tier_bins tier_labels (of_cell (view_count v)))).
  rewrite Hv. cbn [of_cell]. rewrite (cut_tier q Hq).
  destruct (Qle_bool q 10000); [reflexivity|].
  destruct (Qle_bool q 100000); [reflexivity|].
  destruct (Qle_bool q 1000000); [reflexivity|].
  destruct (Qle_bool q 10000000); reflexivity.
Qed.

(** X12.  More views never raise the multiplier, from one view on: of two
    records with positive views, the one with more views has a multiplier
    that is lower or equal. *)
Theorem more_views_lower_multiplier (v1 v2 : VideoRecord) (a b : Q) :
  view_count v1 = Some a ->
  view_count v2 = Some b ->
  (0 < a)%Q -> (a <= b)%Q ->
  leb (tier_multiplier (metrics_of v2)) (tier_multiplier (metrics_of v1))
  = true.
Proof.
  intros H1 H2 Ha Hab.
  rewrite (tier_multiplier_of_views v1 a H1 Ha).
  rewrite (tier_multiplier_of_views v2 b H2) by lra.
  destruct (Qle_bool a 10000) eqn:A1; destruct (Qle_bool a 100000) eqn:A2;
    destruct (Qle_bool a 1000000) eqn:A3;
    destruct (Qle_bool a 10000000) eqn:A4;
    destruct (Qle_bool b 10000) eqn:B1; destruct (Qle_bool b 100000) eqn:B2;
    destruct (Qle_bool b 1000000) eqn:B3;
    destruct (Qle_bool b 10000000) eqn:B4;
    order_cases.
Qed.

Lemma more_views_lower_multiplier_witness :
  leb (tier_multiplier (metrics_of (video ten_thousand_views)))
      (tier_multiplier (metrics_of (video vid1)))
  = true.
Proof.
  apply (more_views_lower_multiplier
           (video vid1) (video ten_thousand_views)
           (inject_Z 1000) (inject_Z 10000)).
  - reflexivity.
  - reflexivity.
  - reflexivity.
  - unfold Qle; simpl; lia.
Defined.

(** *** Categories, from the extractor to the base rate *)

(** X13.  Whatever the category id, the name the extractor writes for it never
    gets the rate of Sports (0.32), and the names Education and Unknown
    get the default 0.25: the table of rates has no entry for them. *)
Theorem extractor_category_rate (category_id : string) (v : VideoRecord) :
  category_name v = Extract.category_name_of category_id ->
  base_ad_rate (metrics_of v) <> fin 0.32 /\
  (category_id = "27" \/ Extract.category_name_of category_id = "Unknown" ->
   base_ad_rate (metrics_of v) = fin 0.25).
Proof.
  intros Hn. rewrite base_ad_rate_eq, Hn.
  unfold Extract.category_name_of, Extract.CATEGORIES, Extract.dict_get.
  destruct (String.eqb_spec category_id "10") as [-> | _];
    [split; [vm_compute; discriminate | intros [H | H]; discriminate]|].
  destruct (String.eqb_spec category_id "20") as [-> | _];
    [split; [vm_compute; discriminate | intros [H | H]; discriminate]|].
  destruct (String.eqb_spec category_id "22") as [-> | _];
    [split; [vm_compute; discriminate | intros [H | H]; discriminate]|].
  destruct (String.eqb_spec category_id "24") as [-> | _];
    [split; [vm_compute; discriminate | intros [H | H]; discriminate]|].
  destruct (String.eqb_spec category_id "25") as [-> | _];
    [split; [vm_compute; discriminate | intros [H | H]; discriminate]|].
  destruct (String.eqb_spec category_id "27") as [-> | _];
    [split; [vm_compute; discriminate | intros _; vm_compute; reflexivity]|].
  destruct (String.eqb_spec category_id "28") as [-> | _];
    [split; [vm_compute; discriminate | intros [H | H]; discriminate]|].
  split; [vm_compute; discriminate | intros _; vm_compute; reflexivity].
Qed.

Lemma extractor_category_rate_witness :
  base_ad_rate
    (metrics_of
       (video (raw_row "edu" "Education" (DateString jan1) (num_cell 60)
                       (num_cell 10) (num_cell 1) (num_cell 0))))
  <> fin 0.32 /\
  ("27" = "27" \/ Extract.category_name_of "27" = "Unknown" ->
   base_ad_rate
     (metrics_of
        (video (raw_row "edu" "Education" (DateString jan1) (num_cell 60)
                        (num_cell 10) (num_cell 1) (num_cell 0))))
   = fin 0.25).
Proof.
  apply (extractor_category_rate "27"). reflexivity.
Defined.

End MetricProps.

(** ** More about the features and the pipeline *)

Module FeatureProps.

Import Float Pandas Store Transform Fixtures.
Import FloatFacts StoreFacts PandasFacts TransformFacts RowFacts PipelineFacts.
Import Properties CleaningProps MetricProps.
Local Open Scope string_scope.
Local Open Scope list_scope.

Lemma age_days_eq (now : Z) (v : VideoRecord) (m : Metrics) :
  age_days (features_of now v m) = days_since now (published_at v).
Proof. reflexivity. Qed.

Lemma views_per_day_eq (now : Z) (v : VideoRecord) (m : Metrics) :
  views_per_day (features_of now v m)
  = round 0 (div (of_cell (view_count v))
                 (replace_0_1 (days_since now (published_at v)))).
Proof. reflexivity. Qed.

Lemma of_Z_nonzero (k : Z) : k <> 0%Z -> ~ (inject_Z k == 0)%Q.
Proof.
  intros Hk H. apply Hk. unfold Qeq in H. simpl in H. lia.
Qed.

Lemma replace_0_1_of_Z (k : Z) :
  replace_0_1 (of_Z k) = of_Z (if (k =? 0)%Z then 1 else k).
Proof.
  destruct (Z.eqb_spec k 0) as [-> | Hk]; [reflexivity|].
  unfold of_Z, replace_0_1.
  apply of_Z_nonzero, Qeqb0_false in Hk. now rewrite Hk.
Qed.

Lemma ns_per_day_pos : (0 < ns_per_day)%Z.
Proof. reflexivity. Qed.

Lemma features_of_timestamp
      (now : Z) (v : VideoRecord) (m : Metrics) (t : Z) :
  published_at v = Timestamp t ->
  exists k : Z,
    (k * ns_per_day <= now - t < (k + 1) * ns_per_day)%Z /\
    age_days (features_of now v m) = of_Z k /\
    views_per_day (features_of now v m)
    = round 0 (div (of_cell (view_count v))
                   (of_Z (if (k =? 0)%Z then 1 else k))).
Proof.
  intros Ht. exists ((now - t) / ns_per_day)%Z.
  pose proof ns_per_day_pos as Hd.
  split.
  - pose proof (Z.mul_div_le (now - t) ns_per_day Hd).
    pose proof (Z.mul_succ_div_gt (now - t) ns_per_day Hd).
    lia.
  - rewrite views_per_day_eq, age_days_eq, Ht. cbn [days_since].
    now rewrite replace_0_1_of_Z.
Qed.

(** X14.  The age is the number of whole days from the timestamp to now, rounded
    down, also when it is negative; the views per day are the views over
    that age, and over 1 when the age is 0. *)
Theorem views_per_day_formula
        (now : Z) (v : VideoRecord) (m : Metrics) (t : Z) :
  published_at v = Timestamp t ->
  exists k : Z,
    (k * ns_per_day <= now - t < (k + 1) * ns_per_day)%Z /\
    age_days (features_of now v m) = of_Z k /\
    views_per_day (features_of now v m)
    = round 0 (div (of_cell (view_count v))
                   (of_Z (if (k =? 0)%Z then 1 else k))).
Proof. apply features_of_timestamp. Qed.

Lemma views_per_day_formula_witness :
  exists k : Z,
    (k * ns_per_day <= march1 - jan1 < (k + 1) * ns_per_day)%Z /\
    age_days (features_of march1
                (video (set_published_at vid1 (Timestamp jan1)))
                (metrics_of (video vid1))) = of_Z k /\
    views_per_day (features_of march1
                     (video (set_published_at vid1 (Timestamp jan1)))
                     (metrics_of (video vid1)))
    = round 0 (div (of_cell (view_count (video vid1)))
                   (of_Z (if (k =? 0)%Z then 1 else k))).
Proof.
  apply (views_per_day_formula
           march1 (video (set_published_at vid1 (Timestamp jan1)))
           (metrics_of (video vid1)) jan1).
  reflexivity.
Defined.

(** X15.  A timestamp later than now gives a negative age, and views per day
    that are zero or negative. *)
Theorem future_timestamp_negative_age
        (now : Z) (v : VideoRecord) (m : Metrics) (t : Z) (a : Q) :
  published_at v = Timestamp t ->
  (now < t)%Z ->
  view_count v = Some a ->
  (0 <= a)%Q ->
  ltb (age_days (features_of now v m)) (of_Z 0) = true /\
  leb (views_per_day (features_of now v m)) (of_Z 0) = true.
Proof.
  intros Ht Hlt Hv Ha.
  destruct (features_of_timestamp now v m t Ht) as (k & Hk & -> & ->).
  assert (Hneg : (k < 0)%Z) by (pose proof ns_per_day_pos; nia).
  split.
  - unfold of_Z. apply ltb_Fin. rewrite <- Zlt_Qlt. exact Hneg.
  - destruct (Z.eqb_spec k 0) as [-> | Hk0]; [lia|].
    rewrite Hv. cbn [of_cell]. unfold of_Z at 1.
    rewrite div_Fin by now apply of_Z_nonzero.
    apply round_upper. unfold fin, of_Z. rewrite leb_Fin, Qred_correct.
    assert (HK : (inject_Z k < 0)%Q).
    { change 0%Q with (inject_Z 0). now rewrite <- Zlt_Qlt. }
    assert (E : (a / inject_Z k == - (a / - inject_Z k))%Q) by (field; lra).
    rewrite E.
    assert (H0 : (0 <= a / - inject_Z k)%Q).
    { apply Qle_shift_div_l; lra. }
    change (inject_Z 0) with 0%Q. lra.
Qed.

Lemma future_timestamp_negative_age_witness :
  ltb (age_days (features_of jan1
                   (video (set_published_at vid2 (Timestamp jan2)))
                   (metrics_of (video vid2))))
      (of_Z 0) = true /\
  leb (views_per_day (features_of jan1
                        (video (set_published_at vid2 (Timestamp jan2)))
                        (metrics_of (video vid2))))
      (of_Z 0) = true.
Proof.
  apply (future_timestamp_negative_age
           jan1 (video (set_published_at vid2 (Timestamp jan2)))
           (metrics_of (video vid2)) jan2 (inject_Z 5000)).
  - reflexivity.
  - reflexivity.
  - reflexivity.
  - unfold Qle; simpl; lia.
Defined.

End FeatureProps.

Module PipelineProps.

Import Float Pandas Store Transform Fixtures.
Import FloatFacts StoreFacts PandasFacts TransformFacts RowFacts PipelineFacts.
Import Properties CleaningProps.
Local Open Scope string_scope.
Local Open Scope list_scope.

(** What a successful [add_features] started from, and what it left. *)
Lemma add_features_inv (now : Z) (w w1 : World) (q : ref) :
  add_features now w = (inr q, w1) ->
  exists p df,
    processed (self w) = Some p /\ table w p = Some df /\
    forallb has_datetime df = true /\ forallb has_metrics df = true /\
    q = List.length (heap w) /\
    w1 = mkWorld (heap w ++ [map (add_feature_columns now) df])
                 (mkSelf (filepath (self w)) (data (self w)) (Some q)).
Proof.
  destruct w as [h [f d [p|]]]; unfold table;
    cbn [heap self data filepath processed].
  - destruct (nth_error h p) as [df|] eqn:Hdf.
    + destruct (forallb has_datetime df) eqn:Ht.
      * destruct (forallb has_metrics df) eqn:Hm.
        -- rewrite (add_features_returns now h f d p df Hdf Ht Hm).
           intros H; inversion H; subst. exists p, df.
           repeat split; auto.
        -- unfold add_features.
           rewrite (bind_ok (attr_processed_run _ _ _ _)).
           rewrite (bind_ok (copy_run _ _ _ _ Hdf)).
           rewrite (bind_ok (load_run _ _ _ _ (nth_error_alloc _ _ _))).
           rewrite Ht, Hm. discriminate.
      * unfold add_features.
        rewrite (bind_ok (attr_processed_run _ _ _ _)).
        rewrite (bind_ok (copy_run _ _ _ _ Hdf)).
        rewrite (bind_ok (load_run _ _ _ _ (nth_error_alloc _ _ _))).
        rewrite Ht. discriminate.
    + unfold add_features.
      rewrite (bind_ok (attr_processed_run _ _ _ _)).
      unfold copy, load, bind; simpl. rewrite Hdf. discriminate.
  - unfold add_features, bind, attr_processed; simpl. discriminate.
Qed.

Lemma add_feature_columns_again (now now' : Z) (r : Row) :
  add_feature_columns now' (add_feature_columns now r)
  = add_feature_columns now' r.
Proof.
  unfold add_feature_columns.
  destruct (metrics r) as [m|] eqn:E; simpl; rewrite ?E; reflexivity.
Qed.

Lemma has_datetime_add_feature_columns (now : Z) (df : DataFrame) :
  forallb has_datetime (map (add_feature_columns now) df)
  = forallb has_datetime df.
Proof.
  induction df as [|r df IH]; simpl; [reflexivity|]. rewrite IH.
  f_equal. unfold add_feature_columns. now destruct (metrics r).
Qed.

Lemma has_metrics_add_feature_columns (now : Z) (df : DataFrame) :
  forallb has_metrics (map (add_feature_columns now) df)
  = forallb has_metrics df.
Proof.
  induction df as [|r df IH]; simpl; [reflexivity|]. rewrite IH.
  f_equal. unfold add_feature_columns, has_metrics.
  now destruct (metrics r) eqn:E; simpl; rewrite ?E.
Qed.

(** X16.  A second [add_features] overwrites the features: its table is the one a
    single call at the later time gives, and the table of the first call
    stays as it was. *)
Theorem add_features_again (now now' : Z) (w w1 : World) (q : ref) :
  add_features now w = (inr q, w1) ->
  exists p df q' w2,
    processed (self w) = Some p /\
    table w p = Some df /\
    table w1 q = Some (map (add_feature_columns now) df) /\
    add_features now' w1 = (inr q', w2) /\
    table w2 q' = Some (map (add_feature_columns now') df) /\
    table w2 q = Some (map (add_feature_columns now) df).
Proof.
  intros Hrun.
  destruct (add_features_inv now w w1 q Hrun)
    as (p & df & Hp & Hdf & Ht & Hm & Hq & Hw).
  subst w1 q. exists p, df. do 2 eexists.
  split; [exact Hp|]. split; [exact Hdf|].
  split; [apply nth_error_alloc|].
  split.
  - apply (add_features_returns now' _ _ _ _ _ (nth_error_alloc _ _ _)).
    + now rewrite has_datetime_add_feature_columns.
    + now rewrite has_metrics_add_feature_columns.
  - unfold table; cbn [heap]. split.
    + rewrite nth_error_alloc. f_equal. rewrite map_map.
      apply map_ext. apply add_feature_columns_again.
    + apply nth_error_old, nth_error_alloc.
Qed.

Lemma add_features_again_witness :
  exists p df q' w2,
    processed
      (self (snd (calculate_metrics
                    (snd (clean_data (transformer_on sample_data))))))
    = Some p /\
    table (snd (calculate_metrics
                  (snd (clean_data (transformer_on sample_data))))) p
    = Some df /\
    table (snd (add_features
                  jan3
                  (snd (calculate_metrics
                          (snd (clean_data (transformer_on sample_data))))))) 5%nat
    = Some (map (add_feature_columns jan3) df) /\
    add_features
      march1
      (snd (add_features
              jan3
              (snd (calculate_metrics
                      (snd (clean_data (transformer_on sample_data)))))))
    = (inr q', w2) /\
    table w2 q' = Some (map (add_feature_columns march1) df) /\
    table w2 5%nat = Some (map (add_feature_columns jan3) df).
Proof.
  apply (add_features_again jan3 march1).
  vm_compute. reflexivity.
Defined.

(** X17.  Without [clean_data] the timestamps are still text: [calculate_metrics]
    returns, but [add_features] then raises AttributeError on the [.dt]
    accessor and [self.processed] stays the table of metrics. *)
Theorem features_need_parsed_timestamps
        (now : Z) (w : World) (d : ref) (df : DataFrame) (row : Row) :
  data (self w) = Some d ->
  table w d = Some df ->
  In row df ->
  is_datetime (published_at (video row)) = false ->
  exists p w1 what w2,
    calculate_metrics w = (inr p, w1) /\
    add_features now w1 = (inl (AttributeError what), w2) /\
    processed (self w2) = Some p /\
    table w2 p = Some (map add_metrics df).
Proof.
  destruct w as [h [f d' p0]]. unfold table; cbn [heap self data].
  intros -> Hdf Hin Hrow.
  assert (Hf : forallb has_datetime (map add_metrics df) = false).
  { rewrite has_datetime_add_metrics.
    apply Bool.not_true_iff_false. intros Hall.
    rewrite forallb_forall in Hall. specialize (Hall row Hin).
    unfold has_datetime in Hall. congruence. }
  do 4 eexists.
  split; [apply (calculate_metrics_returns h f d p0 df Hdf)|].
  split.
  - unfold add_features.
    rewrite (bind_ok (attr_processed_run _ _ _ _)).
    rewrite (bind_ok (copy_run _ _ _ _ (nth_error_alloc _ _ _))).
    rewrite (bind_ok (load_run _ _ _ _ (nth_error_alloc _ _ _))).
    rewrite Hf. reflexivity.
  - cbn [heap self processed]. split; [reflexivity|].
    apply nth_error_old, nth_error_alloc.
Qed.

Lemma features_need_parsed_timestamps_witness :
  exists p w1 what w2,
    calculate_metrics (transformer_on sample_data) = (inr p, w1) /\
    add_features march1 w1 = (inl (AttributeError what), w2) /\
    processed (self w2) = Some p /\
    table w2 p = Some (map add_metrics sample_data).
Proof.
  apply (features_need_parsed_timestamps
           march1 (transformer_on sample_data) 0%nat sample_data vid1).
  - reflexivity.
  - reflexivity.
  - simpl. auto.
  - reflexivity.
Defined.

Lemma process_pipeline_run (now : Z) (w : World) :
  match clean_data w with
  | (inr c, w1) =>
      exists cl q w3,
        table w1 c = Some cl /\
        process_pipeline now w = (inr (Some q), w3) /\
        table w3 q
        = Some (map (add_feature_columns now) (map add_metrics cl)) /\
        data (self w3) = Some c /\
        table w3 c = Some cl /\
        processed (self w3) = Some q
  | (inl e, w') => process_pipeline now w = (inl e, w')
  end.
Proof.
  destruct (clean_data w) as [[e | c] w1] eqn:Hrun.
  - unfold process_pipeline. apply (bind_raise Hrun).
  - destruct (stages_after_clean now w w1 c Hrun)
      as (cl & p & w2 & q & w3 & Hcl & _ & Hm & _ & Hf & Hout & Hd & Hp & H12 & H23).
    exists cl, q, w3.
    split; [exact Hcl|].
    split.
    + unfold process_pipeline.
      rewrite (bind_ok Hrun), (bind_ok Hm), (bind_ok Hf).
      unfold get_processed. now rewrite Hp.
    + repeat split; auto.
Qed.

(** X18.  [process_pipeline] fails only in [clean_data].  When [clean_data]
    returns, the pipeline returns the cleaned table with the metrics and the
    features added, and leaves [self.data] on the cleaned table; when
    [clean_data] raises, the pipeline raises the same error in the same
    state. *)
Theorem process_pipeline_outcome (now : Z) (w : World) :
  match clean_data w with
  | (inr c, w1) =>
      exists cl q w3,
        table w1 c = Some cl /\
        process_pipeline now w = (inr (Some q), w3) /\
        table w3 q
        = Some (map (add_feature_columns now) (map add_metrics cl)) /\
        data (self w3) = Some c /\
        table w3 c = Some cl /\
        processed (self w3) = Some q
  | (inl e, w') => process_pipeline now w = (inl e, w')
  end.
Proof. apply process_pipeline_run. Qed.

Lemma clean_data_runs (w : World) (d : ref) (df out : DataFrame) :
  data (self w) = Some d ->
  table w d = Some df ->
  cleaned df = inr out ->
  exists c w1, clean_data w = (inr c, w1) /\ table w1 c = Some out.
Proof.
  destruct w as [h [f d' p]]. unfold table; cbn [heap self data].
  intros -> Hdf Hc. do 2 eexists.
  split; [apply (clean_data_returns h f d p df out Hdf Hc)|].
  cbn [heap]. apply nth_error_third.
Qed.

(** X19.  A second [process_pipeline] at the same time returns a table equal to
    the first one. *)
Theorem process_pipeline_twice
        (now : Z) (w w3 : World) (q : ref) (out : DataFrame) :
  process_pipeline now w = (inr (Some q), w3) ->
  table w3 q = Some out ->
  exists q' w4,
    process_pipeline now w3 = (inr (Some q'), w4) /\
    table w4 q' = Some out /\
    table w4 q = Some out.
Proof.
  intros Hrun Hout.
  pose proof (process_pipeline_run now w) as H1.
  destruct (clean_data w) as [[e | c] w1] eqn:Hclean.
  - rewrite Hrun in H1. discriminate.
  - destruct H1 as (cl & q0 & w30 & Hcl & Hrun0 & Hout0 & Hd & Hc & Hp).
    rewrite Hrun in Hrun0. inversion Hrun0; subst q0 w30; clear Hrun0.
    rewrite Hout in Hout0. inversion Hout0; subst out; clear Hout0.
    destruct (clean_data_table w w1 c cl Hclean Hcl) as (d & df & _ & _ & Hcleaned).
    destruct (clean_data_runs w3 c cl cl Hd Hc (cleaned_fixed df cl Hcleaned))
      as (c2 & w4 & Hclean2 & Hcl2).
    pose proof (process_pipeline_run now w3) as H2.
    rewrite Hclean2 in H2.
    destruct H2 as (cl' & q' & w5 & Hcl' & Hrun2 & Hout2 & _).
    rewrite Hcl2 in Hcl'. inversion Hcl'; subst cl'.
    exists q', w5. split; [exact Hrun2|]. split; [exact Hout2|].
    destruct (stages_after_clean now w3 w4 c2 Hclean2)
      as (cl3 & p3 & w6 & q3 & w7 & _ & _ & Hm3 & _ & Hf3 & _ & _ & Hp3 & H12 & H23).
    unfold process_pipeline in Hrun2.
    rewrite (bind_ok Hclean2), (bind_ok Hm3), (bind_ok Hf3) in Hrun2.
    unfold get_processed in Hrun2. inversion Hrun2; subst w5.
    apply H23, H12.
    destruct (clean_data_inv w3 w4 c2 Hclean2) as (? & ? & ? & _ & _ & _ & _ & ->).
    unfold table in *; cbn [heap]. now do 3 apply nth_error_old.
Qed.

Lemma process_pipeline_twice_witness :
  let out :=
    map (add_feature_columns march1)
        (map add_metrics
             [set_published_at vid1 (Timestamp jan1);
              set_published_at vid2 (Timestamp jan2);
              set_published_at vid3 (Timestamp jan3)]) in
  exists q' w4,
    process_pipeline
      march1 (snd (process_pipeline march1 (transformer_on sample_data)))
    = (inr (Some q'), w4) /\
    table w4 q' = Some out /\
    table w4 5%nat = Some out.
Proof.
  apply (process_pipeline_twice march1 (transformer_on sample_data)).
  - vm_compute. reflexivity.
  - vm_compute. reflexivity.
Defined.

End PipelineProps.

(** ** The batches of get_video_details *)

Module ExtractProps.

Import Extract CleaningProps.
Local Open Scope nat_scope.
Local Open Scope list_scope.

Lemma range_from_below (fuel start stop step : nat) (i : nat) :
  In i (range_from fuel start stop step) -> start <= i < stop.
Proof.
  revert start; induction fuel as [|fuel IH]; intros start; simpl; [tauto|].
  destruct (Nat.ltb_spec start stop) as [Hlt | Hge]; [|intros []].
  intros [<- | Hin]; [lia|].
  apply IH in Hin. lia.
Qed.

Lemma slice_fifty (A : Type) (l : list A) (i : nat) :
  slice l i (i + 50) = firstn 50 (skipn i l).
Proof.
  unfold slice. now replace (i + 50 - i) with 50 by lia.
Qed.

Lemma concat_slices (ids : list string) (fuel i : nat) :
  List.length ids - i <= fuel ->
  concat (map (fun i => slice ids i (i + 50))
              (range_from fuel i (List.length ids) 50))
  = skipn i ids.
Proof.
  revert i; induction fuel as [|fuel IH]; intros i Hfuel; simpl.
  - symmetry. apply skipn_all2. lia.
  - destruct (Nat.ltb_spec i (List.length ids)) as [Hlt | Hge]; simpl.
    + rewrite IH by lia. rewrite slice_fifty.
      replace (i + 50) with (50 + i) by lia.
      rewrite <- skipn_skipn. apply firstn_skipn.
    + symmetry. apply skipn_all2. lia.
Qed.

Lemma concat_batches (video_ids : list string) :
  concat (batches video_ids) = video_ids.
Proof.
  unfold batches, range. now rewrite concat_slices by lia.
Qed.


Section VideoDetails.

Variables Item Video : Type.
Variable execute : list string -> option (list Item).
Variable parse_video : Item -> Video.

Lemma fold_batches (video_ids : list string) (starts : list nat)
      (videos : list Video) :
  fold_left
    (fun videos i =>
       let batch := slice video_ids i (i + 50) in
       match execute batch with
       | Some items => videos ++ map parse_video items
       | None => videos
       end)
    starts videos
  = videos ++
    flat_map (fun batch =>
                match execute batch with
                | Some items => map parse_video items
                | None => []
                end)
             (map (fun i => slice video_ids i (i + 50)) starts).
Proof.
  revert videos; induction starts as [|i starts IH]; intros videos; simpl.
  - now rewrite app_nil_r.
  - rewrite IH. destruct (execute _); [now rewrite app_assoc | reflexivity].
Qed.

Lemma flat_map_answers (fails : list string -> bool) (lookup : string -> Item)
      (bs : list (list string)) :
  (forall batch, In batch bs ->
     execute batch = if fails batch then None else Some (map lookup batch)) ->
  flat_map (fun batch =>
              match execute batch with
              | Some items => map parse_video items
              | None => []
              end) bs
  = map (fun id => parse_video (lookup id))
        (concat (filter (fun batch => negb (fails batch)) bs)).
Proof.
  induction bs as [|b bs IH]; intros H; simpl; [reflexivity|].
  rewrite (H b) by now left.
  rewrite IH by (intros b' Hb'; apply H; now right).
  destruct (fails b); simpl; [reflexivity|].
  now rewrite map_app, map_map.
Qed.

Lemma get_video_details_answers
      (fails : list string -> bool) (lookup : string -> Item)
      (video_ids : list string) :
  (forall batch, In batch (batches video_ids) ->
     execute batch = if fails batch then None else Some (map lookup batch)) ->
  get_video_details execute parse_video video_ids
  = map (fun id => parse_video (lookup id))
        (concat (filter (fun batch => negb (fails batch))
                        (batches video_ids))).
Proof.
  intros H. unfold get_video_details. rewrite fold_batches. simpl.
  now apply flat_map_answers.
Qed.

(** X21.  A request that raises HttpError loses the videos of its batch and no
    other: when the API answers a batch with one item for each id, in
    order, or fails, the videos returned are those of the batches that did
    not fail, in the order of the ids. *)
Theorem get_video_details_skips_failed
        (fails : list string -> bool) (lookup : string -> Item)
        (video_ids : list string) :
  (forall batch, In batch (batches video_ids) ->
     execute batch = if fails batch then None else Some (map lookup batch)) ->
  get_video_details execute parse_video video_ids
  = map (fun id => parse_video (lookup id))
        (concat (filter (fun batch => negb (fails batch))
                        (batches video_ids))).
Proof. apply get_video_details_answers. Qed.

(** X22.  When no request fails, there is one video for each id, in the order of
    the ids: the batching does not show. *)
Theorem get_video_details_complete
        (lookup : string -> Item) (video_ids : list string) :
  (forall batch, In batch (batches video_ids) ->
     execute batch = Some (map lookup batch)) ->
  get_video_details execute parse_video video_ids
  = map (fun id => parse_video (lookup id)) video_ids.
Proof.
  intros H.
  rewrite (get_video_details_answers (fun _ => false) lookup video_ids H).
  simpl negb. rewrite (filter_all _ (fun _ => true)) by reflexivity.
  now rewrite concat_batches.
Qed.

End VideoDetails.

(** 120 ids, and an API that knows every id but fails on the batch that
    starts with the id of number 50. *)
Local Abbreviation some_ids :=
  (map (fun n => String (Ascii.ascii_of_nat n) EmptyString) (seq 0 120)).

Local Abbreviation second_batch_fails :=
  (fun batch : list string =>
     match batch with
     | id :: _ => String.eqb id (String (Ascii.ascii_of_nat 50) EmptyString)
     | [] => false
     end).

Lemma get_video_details_skips_failed_witness :
  get_video_details
    (fun batch =>
       if second_batch_fails batch then None
       else Some (map (fun id => (id, 1)) batch))
    (fun item => fst item) some_ids
  = map (fun id => fst (id, 1))
        (concat (filter (fun batch => negb (second_batch_fails batch))
                        (batches some_ids))).
Proof.
  apply (get_video_details_skips_failed
           (string * nat) string
           (fun batch =>
              if second_batch_fails batch then None
              else Some (map (fun id => (id, 1)) batch))
           (fun item => fst item)
           second_batch_fails (fun id => (id, 1)) some_ids).
  intros batch _. reflexivity.
Defined.

Lemma get_video_details_complete_witness :
  get_video_details
    (fun batch => Some (map (fun id => (id, 1)) batch))
    (fun item => fst item) some_ids
  = map (fun id => fst (id, 1)) some_ids.
Proof.
  apply (get_video_details_complete
           (string * nat) string
           (fun batch => Some (map (fun id => (id, 1)) batch))
           (fun item => fst item) (fun id => (id, 1)) some_ids).
  intros batch _. reflexivity.
Defined.

(** Of the 120 ids, the 50 of the failed batch are missing. *)
Example seventy_videos_left :
  List.length
    (get_video_details
       (fun batch =>
          if second_batch_fails batch then None
          else Some (map (fun id => (id, 1)) batch))
       (fun item => fst item) some_ids)
  = 70.
Proof. vm_compute. reflexivity. Qed.

End ExtractProps.
